(** * py-omada: the Omada controller client and its batch script

    A shallow embedding of [pyomada/pyomada.py] (class [OmadaAPI]) and of
    [pyomada/enable_radios.py] (function [main]).

    Python objects coming out of [json] are kept as a tree of values,
    dictionaries as insertion-ordered association lists.  A method of the
    class is a computation over the interpreter state: the [OmadaAPI]
    object itself, the requests handed to [requests.Session], the records
    given to [logging] and the number of clock readings made so far.  An
    exception ends the computation but keeps every effect made before it,
    as in Python.

    The [print] statements of the debug summaries are left out: they read
    the state and write to standard output only. *)

From Stdlib Require Import String Ascii List ZArith Lia Bool Sorted.
From Stdlib Require Import DecimalString.
Import ListNotations.
Local Open Scope string_scope.
Local Open Scope list_scope.
Set Warnings "-register-all".

(** ** Python values *)

(** What [Response.json()] hands back.  A float is kept by its [repr],
    which Python makes canonical. *)
Inductive json : Type :=
| JNull
| JBool (b : bool)
| JInt (n : Z)
| JFloat (repr : string)
| JStr (s : string)
| JArr (items : list json)
| JObj (fields : list (string * json)).

Definition dict (V : Type) : Type := list (string * V).

(** [d.get(k)] *)
Fixpoint dict_get {V : Type} (d : dict V) (k : string) : option V :=
  match d with
  | [] => None
  | (k', v) :: rest => if (k' =? k)%string then Some v else dict_get rest k
  end.

(** [d[k] = v]: a key already there keeps its place. *)
Fixpoint dict_set {V : Type} (k : string) (v : V) (d : dict V) : dict V :=
  match d with
  | [] => [(k, v)]
  | (k', v') :: rest =>
      if (k' =? k)%string then (k', v) :: rest else (k', v') :: dict_set k v rest
  end.

(** [d.update(other)] *)
Definition dict_update {V : Type} (d other : dict V) : dict V :=
  fold_left (fun acc kv => dict_set (fst kv) (snd kv) acc) other d.

(** [k in d] *)
Definition dict_mem {V : Type} (d : dict V) (k : string) : bool :=
  match dict_get d k with Some _ => true | None => false end.

(** [str(n)] for a Python [int] *)
Definition str_of_int (n : Z) : string :=
  NilZero.string_of_int (Z.to_int n).

(** ** Exceptions *)

Inductive exception : Type :=
| KeyError (key : string)
| TypeError (msg : string)
| ValueError (msg : string)
| AttributeError (msg : string)
| JSONDecodeError
| ConnectionError
| SSLError
| Timeout.

(** [type(e).__name__] *)
Definition exn_name (e : exception) : string :=
  match e with
  | KeyError _ => "KeyError"
  | TypeError _ => "TypeError"
  | ValueError _ => "ValueError"
  | AttributeError _ => "AttributeError"
  | JSONDecodeError => "JSONDecodeError"
  | ConnectionError => "ConnectionError"
  | SSLError => "SSLError"
  | Timeout => "Timeout"
  end.

Inductive outcome (A : Type) : Type :=
| Ok (a : A)
| Raise (e : exception).
Arguments Ok {A} a.
Arguments Raise {A} e.

(** [v[k]] with a string key *)
Definition getitem (v : json) (k : string) : outcome json :=
  match v with
  | JObj d =>
      match dict_get d k with
      | Some x => Ok x
      | None => Raise (KeyError k)
      end
  | JArr _ => Raise (TypeError "list indices must be integers or slices, not str")
  | JStr _ => Raise (TypeError "string indices must be integers, not 'str'")
  | JNull => Raise (TypeError "'NoneType' object is not subscriptable")
  | JBool _ => Raise (TypeError "'bool' object is not subscriptable")
  | JInt _ => Raise (TypeError "'int' object is not subscriptable")
  | JFloat _ => Raise (TypeError "'float' object is not subscriptable")
  end.

(** ** HTTP as the class sees it *)

(** One call of [Session.get], [Session.post] or [Session.patch] with its
    keyword arguments. *)
Record request : Type := mkRequest {
  req_mode : string;
  req_url : string;
  req_params : dict json;
  req_data : option json;
  req_json : option json
}.

(** A [requests.Response]: [resp_json] is [None] when the body is not
    JSON, in which case [.json()] raises. *)
Record response : Type := mkResponse {
  status_code : Z;
  resp_json : option json
}.

Definition response_json (r : response) : outcome json :=
  match resp_json r with
  | Some j => Ok j
  | None => Raise JSONDecodeError
  end.

(** What [makeApiCall] returns: [Union[dict, requests.Response]]. *)
Inductive api_result : Type :=
| Parsed (j : json)
| Raw (r : response).

(** [result[k]] *)
Definition result_getitem (r : api_result) (k : string) : outcome json :=
  match r with
  | Parsed j => getitem j k
  | Raw _ => Raise (TypeError "'Response' object is not subscriptable")
  end.

(** [result.status_code] *)
Definition result_status_code (r : api_result) : outcome Z :=
  match r with
  | Raw resp => Ok (status_code resp)
  | Parsed _ => Raise (AttributeError "object has no attribute 'status_code'")
  end.

(** ** Interpreter state *)

Record OmadaAPI : Type := mkOmadaAPI {
  token : json;
  base_api_path : string;
  debug : bool;
  baseurl : string;
  site : string;
  verify : bool;
  login_username : string;
  login_password : string
}.

Inductive level : Type := INFO | WARNING.

Record state : Type := mkState {
  self : OmadaAPI;
  ticks : nat;
  sent : list request;
  logged : list (level * string)
}.

Definition M (A : Type) : Type := state -> outcome A * state.

Definition ret {A : Type} (a : A) : M A := fun st => (Ok a, st).

Definition raise {A : Type} (e : exception) : M A := fun st => (Raise e, st).

Definition bind {A B : Type} (m : M A) (k : A -> M B) : M B :=
  fun st =>
    match m st with
    | (Ok a, st') => k a st'
    | (Raise e, st') => (Raise e, st')
    end.

Definition lift {A : Type} (o : outcome A) : M A := fun st => (o, st).

Notation "x <- c ;; k" := (bind c (fun x => k))
  (at level 61, c at next level, right associativity).
Notation "c ;;; k" := (bind c (fun _ => k))
  (at level 61, right associativity).

Definition get_self : M OmadaAPI := fun st => (Ok (self st), st).

Definition set_token (t : json) : M unit :=
  fun st =>
    let o := self st in
    (Ok tt,
     mkState (mkOmadaAPI t (base_api_path o) (debug o) (baseurl o) (site o)
                (verify o) (login_username o) (login_password o))
       (ticks st) (sent st) (logged st)).

(** [logging.info] and [logging.warning]; the root logger is set to
    [DEBUG], so both are emitted. *)
Definition logging (l : level) (msg : string) : M unit :=
  fun st =>
    (Ok tt, mkState (self st) (ticks st) (sent st) (logged st ++ [(l, msg)])).

(** [OmadaAPI.__init__], the branch without a configuration file; the
    credentials are what [login_prompt] read. *)
Definition OmadaAPI_init (baseurl site : string) (verify debug : bool)
    (username password : string) : OmadaAPI :=
  mkOmadaAPI JNull "/api/v2" debug baseurl site verify username password.

Definition path_to_url (o : OmadaAPI) (path : string) : string :=
  baseurl o ++ base_api_path o ++ path.

(** *** The constructor

    The mapping [read_yml] loads from the configuration file: each key
    the constructor reads, present or not, with a value of the type the
    constructor's annotations give.  Other keys are never read. *)
Record config_dict : Type := mkConfig {
  cfg_baseurl : option string;
  cfg_site : option string;
  cfg_verify : option bool;
  cfg_username : option string;
  cfg_password : option string
}.

(** [self.config_dict[key]] *)
Definition config_getitem {A : Type} (v : option A) (key : string)
  : outcome A :=
  match v with
  | Some x => Ok x
  | None => Raise (KeyError key)
  end.

Definition and_then {A B : Type} (o : outcome A) (k : A -> outcome B)
  : outcome B :=
  match o with
  | Ok a => k a
  | Raise e => Raise e
  end.

(** [OmadaAPI.__init__].  [config_file] is what [read_yml] loads when
    [config_fpath] is a file and [None] when it is not; [prompt] is what
    [login_prompt] reads, which happens only without a file.  Beside the
    object, the result tells whether urllib3's warnings were switched
    off. *)
Definition init (config_file : option config_dict) (baseurl site : string)
    (verify debug : bool) (prompt : string * string)
  : outcome (OmadaAPI * bool) :=
  match config_file with
  | Some c =>
      and_then (config_getitem (cfg_baseurl c) "baseurl") (fun baseurl =>
      and_then (config_getitem (cfg_site c) "site") (fun site =>
      and_then (config_getitem (cfg_verify c) "verify") (fun verify =>
      and_then (config_getitem (cfg_username c) "username") (fun username =>
      and_then (config_getitem (cfg_password c) "password") (fun password =>
      Ok (mkOmadaAPI JNull "/api/v2" debug baseurl site verify
            username password,
          negb verify))))))
  | None =>
      let '(login_username, login_password) := prompt in
      Ok (mkOmadaAPI JNull "/api/v2" debug baseurl site verify
            login_username login_password,
          negb verify)
  end.

(** ** pandas containers *)

Record DataFrame : Type := mkDataFrame {
  columns : list string;
  records : list (dict json)
}.

Definition Series : Type := dict json.

(** ** A sample controller

    A session against the default controller address, a clock that gains
    a millisecond per reading, and a controller with two access points
    that answers every other call with an empty envelope. *)

Definition sample_api : OmadaAPI :=
  OmadaAPI_init "https://omadacontroller.local:8043" "Default" true true
    "admin" "secret".

Definition sample_state : state := mkState sample_api 0 [] [].

Definition sample_clock (k : nat) : Z := 1700000000000 + Z.of_nat k.

Definition envelope (result : json) : json :=
  JObj [("errorCode", JInt 0); ("msg", JStr "Success."); ("result", result)].

Definition sample_devices : list json :=
  [JObj [("mac", JStr "AA:BB"); ("name", JStr "EAP1")];
   JObj [("mac", JStr "CC:DD"); ("name", JStr "EAP2")]].

Definition sample_http (past : list request) (r : request)
  : outcome response :=
  if (req_url r =? "https://omadacontroller.local:8043/api/v2/login")%string
  then Ok (mkResponse 200 (Some (envelope (JObj [("token", JStr "t0k3n")]))))
  else if (req_url r =?
           "https://omadacontroller.local:8043/api/v2/sites/Default/devices")%string
  then Ok (mkResponse 200 (Some (envelope (JArr sample_devices))))
  else Ok (mkResponse 200 (Some (envelope (JObj [])))).

(** A controller that is down, and one whose bodies are not JSON. *)
Definition refusing_http (past : list request) (r : request)
  : outcome response := Raise ConnectionError.

Definition html_http (code : Z) (past : list request) (r : request)
  : outcome response := Ok (mkResponse code None).

(** A controller that answers everything with the same JSON body. *)
Definition const_http (code : Z) (body : json) (past : list request)
    (r : request) : outcome response := Ok (mkResponse code (Some body)).

(** The sample controller with another device list at its site. *)
Definition site_http (devices : list json) (past : list request)
    (r : request) : outcome response :=
  if (req_url r =? "https://omadacontroller.local:8043/api/v2/login")%string
  then Ok (mkResponse 200 (Some (envelope (JObj [("token", JStr "t0k3n")]))))
  else if (req_url r =?
           "https://omadacontroller.local:8043/api/v2/sites/Default/devices")%string
  then Ok (mkResponse 200 (Some (envelope (JArr devices))))
  else Ok (mkResponse 200 (Some (envelope (JObj [])))).

(** Devices as a controller that does not name them would list them. *)
Definition nameless_devices : list json :=
  [JObj [("mac", JStr "AA:BB")];
   JObj [("mac", JStr "CC:DD"); ("model", JStr "EAP245")]].

(** The sample controller, with every PATCH to [bad_url] timing out. *)
Definition flaky_http (bad_url : string) (past : list request)
    (r : request) : outcome response :=
  if ((req_mode r =? "PATCH") && (req_url r =? bad_url))%string
  then Raise Timeout
  else site_http sample_devices past r.

(** A configuration file for a second controller. *)
Definition sample_config : config_dict :=
  mkConfig (Some "https://10.0.0.2:8043") (Some "Lab") (Some false)
    (Some "operator") (Some "hunter2").

Definition sample_DataFrame_other (data : json) : outcome DataFrame :=
  Raise (ValueError "DataFrame constructor not properly called!").

Definition sample_Series_other (data : json) : outcome Series := Ok [].

Definition sample_cell_str_other (df : DataFrame) (i : nat) (col : string)
  : string := "nan".

Section Client.

(** The outside world: [clock k] is what the [k]-th call of
    [get_timestamp] computes, [http past r] is how the HTTP layer answers
    request [r] after the requests [past]. *)
Variable clock : nat -> Z.
Variable http : list request -> request -> outcome response.

Definition get_timestamp : M Z :=
  fun st =>
    (Ok (clock (ticks st)),
     mkState (self st) (S (ticks st)) (sent st) (logged st)).

(** [self.session.get/post/patch(...)] *)
Definition session_request (r : request) : M response :=
  fun st =>
    (http (sent st) r,
     mkState (self st) (ticks st) (sent st ++ [r]) (logged st)).

Definition makeApiCall (url : string) (mode : string)
    (endpoint_params : option (dict json)) (data json_ : option json)
    (debug_ include_token bare_url serialize_result : bool) : M api_result :=
  let endpoint_params :=
    match endpoint_params with None => [] | Some p => p end in
  o <- get_self ;;
  let url := if negb bare_url then path_to_url o url else url in
  endpoint_params <-
    (if include_token then
       now <- get_timestamp ;;
       ret (dict_update endpoint_params [("token", token o); ("_", JInt now)])
     else ret endpoint_params) ;;
  data <-
    (if (mode =? "GET")%string then
       session_request (mkRequest "GET" url endpoint_params None None)
     else if (mode =? "POST")%string then
       session_request (mkRequest "POST" url endpoint_params data json_)
     else if (mode =? "PATCH")%string then
       session_request (mkRequest "PATCH" url endpoint_params data json_)
     else raise (ValueError ("Unsupported mode " ++ mode))) ;;
  if serialize_result then
    response <- lift (response_json data) ;;
    ret (Parsed response)
  else ret (Raw data).

Definition login : M json :=
  o <- get_self ;;
  let json_dict :=
    JObj [("username", JStr (login_username o));
          ("password", JStr (login_password o))] in
  result <- makeApiCall "/login" "POST" None None (Some json_dict)
              (debug o) false false true ;;
  inner <- lift (result_getitem result "result") ;;
  tok <- lift (getitem inner "token") ;;
  set_token tok ;;;
  o' <- get_self ;;
  ret (token o').

Definition logout : M unit :=
  o <- get_self ;;
  result <- makeApiCall "/logout" "POST" None None None
              (debug o) false false false ;;
  status_code <- lift (result_status_code result) ;;
  if (status_code =? 200)%Z then logging INFO "logged out"
  else logging WARNING
         ("logout failed with status code " ++ str_of_int status_code).

Definition is_logged : M bool :=
  result <- makeApiCall "/loginStatus" "GET" None None None
              true true false false ;;
  status_code <- lift (result_status_code result) ;;
  if (status_code =? 200)%Z then ret true else ret false.

(** *** pandas

    [pd.DataFrame] over a list of JSON objects, the shape of the device
    list: one row per object, the columns being the keys in order of
    first appearance, a key missing from a row read as NaN.  What the
    constructors do with a payload of another shape, and how a cell that
    is not a string prints, is pandas' business and is left open. *)

Variable DataFrame_other : json -> outcome DataFrame.
Variable Series_other : json -> outcome Series.
Variable cell_str_other : DataFrame -> nat -> string -> string.

Definition nan : json := JFloat "nan".

Fixpoint as_records (items : list json) : option (list (dict json)) :=
  match items with
  | [] => Some []
  | JObj d :: rest =>
      match as_records rest with
      | Some ds => Some (d :: ds)
      | None => None
      end
  | _ :: _ => None
  end.

Definition has_column (cols : list string) (k : string) : bool :=
  existsb (String.eqb k) cols.

Definition add_column (cols : list string) (k : string) : list string :=
  if has_column cols k then cols else cols ++ [k].

Definition columns_of (rows : list (dict json)) : list string :=
  fold_left (fun cols row => fold_left add_column (map fst row) cols) rows [].

Definition pd_DataFrame (data : json) : outcome DataFrame :=
  match data with
  | JArr items =>
      match as_records items with
      | Some rows => Ok (mkDataFrame (columns_of rows) rows)
      | None => DataFrame_other data
      end
  | _ => DataFrame_other data
  end.

Definition pd_Series (data : json) : outcome Series :=
  match data with
  | JObj d => Ok d
  | _ => Series_other data
  end.

Definition cell (row : dict json) (col : string) : json :=
  match dict_get row col with
  | Some v => v
  | None => nan
  end.

(** [df[col]] *)
Definition frame_getitem (df : DataFrame) (col : string)
  : outcome (list json) :=
  if has_column (columns df) col
  then Ok (map (fun row => cell row col) (records df))
  else Raise (KeyError col).

(** [df_row[col]] for a row of [df.iterrows()] *)
Definition row_getitem (df : DataFrame) (row : dict json) (col : string)
  : outcome json :=
  if has_column (columns df) col then Ok (cell row col)
  else Raise (KeyError col).

(** A cell of row [i], column [col], inside an f-string. *)
Definition format_cell (df : DataFrame) (i : nat) (col : string) (v : json)
  : string :=
  match v with
  | JStr s => s
  | _ => cell_str_other df i col
  end.

(** *** Read operations *)

Definition get_admins : M DataFrame :=
  o <- get_self ;;
  result <- makeApiCall "/users" "GET" None None None
              (debug o) true false true ;;
  inner <- lift (result_getitem result "result") ;;
  data <- lift (getitem inner "data") ;;
  lift (pd_DataFrame data).

Definition get_sites : M DataFrame :=
  o <- get_self ;;
  result <- makeApiCall "/sites" "GET" None None None
              (debug o) true false true ;;
  inner <- lift (result_getitem result "result") ;;
  data <- lift (getitem inner "data") ;;
  lift (pd_DataFrame data).

Definition get_scenarios : M json :=
  o <- get_self ;;
  result <- makeApiCall "/scenarios" "GET" None None None
              (debug o) true false true ;;
  lift (result_getitem result "result").

Definition get_site_settings (site_key : string) : M DataFrame :=
  o <- get_self ;;
  result <- makeApiCall ("/sites/" ++ site_key ++ "/setting") "GET"
              None None None (debug o) true false true ;;
  inner <- lift (result_getitem result "result") ;;
  lift (pd_DataFrame inner).

Definition get_devices (site_key : option string) : M DataFrame :=
  o <- get_self ;;
  let site_key := match site_key with None => site o | Some k => k end in
  result <- makeApiCall ("/sites/" ++ site_key ++ "/devices") "GET"
              None None None (debug o) true false true ;;
  inner <- lift (result_getitem result "result") ;;
  lift (pd_DataFrame inner).

Definition get_eap_data (eap_mac : string) (site_key : option string)
  : M Series :=
  o <- get_self ;;
  let site_key := match site_key with None => site o | Some k => k end in
  result <- makeApiCall ("/sites/" ++ site_key ++ "/eaps/" ++ eap_mac) "GET"
              None None None (debug o) true false true ;;
  inner <- lift (result_getitem result "result") ;;
  lift (pd_Series inner).

(** *** Mutations *)

Definition set_eap_2g_radio (eap_mac : string) (radio_status : bool)
    (site_key : option string) : M api_result :=
  o <- get_self ;;
  let site_key := match site_key with None => site o | Some k => k end in
  result <- makeApiCall ("/sites/" ++ site_key ++ "/eaps/" ++ eap_mac) "PATCH"
              None None
              (Some (JObj [("radioSetting2g",
                            JObj [("radioEnable", JBool radio_status)])]))
              (debug o) true false true ;;
  ret result.

Definition set_eap_led_status (eap_mac : string) (led_status : Z)
    (site_key : option string) : M api_result :=
  o <- get_self ;;
  let site_key := match site_key with None => site o | Some k => k end in
  result <- makeApiCall ("/sites/" ++ site_key ++ "/eaps/" ++ eap_mac) "PATCH"
              None None
              (Some (JObj [("ledSetting", JInt led_status)]))
              (debug o) true false true ;;
  ret result.

Definition set_eap_5g_radio (eap_mac : string) (radio_status : bool)
    (site_key : option string) : M api_result :=
  o <- get_self ;;
  let site_key := match site_key with None => site o | Some k => k end in
  result <- makeApiCall ("/sites/" ++ site_key ++ "/eaps/" ++ eap_mac) "PATCH"
              None None
              (Some (JObj [("radioSetting5g",
                            JObj [("radioEnable", JBool radio_status)])]))
              (debug o) true false true ;;
  ret result.

(** ** Callers *)

(** A method call as a caller writes it.  A [site_key] of [None] is an
    argument left out (or passed as [None], which is the same to the
    methods that declare [site_key: str = None]). *)
Inductive call : Type :=
| Login
| Logout
| IsLogged
| GetAdmins
| GetSites
| GetScenarios
| GetSiteSettings (site_key : option string)
| GetDevices (site_key : option string)
| GetEapData (eap_mac : string) (site_key : option string)
| SetEap2gRadio (eap_mac : string) (radio_status : bool)
    (site_key : option string)
| SetEapLedStatus (eap_mac : string) (led_status : Z)
    (site_key : option string)
| SetEap5gRadio (eap_mac : string) (radio_status : bool)
    (site_key : option string).

Definition discard {A : Type} (m : M A) : M unit := _ <- m ;; ret tt.

(** Binding the arguments and running the method.  [get_site_settings]
    declares [site_key] without a default: Python rejects a call that
    leaves it out before the body runs. *)
Definition invoke (c : call) : M unit :=
  match c with
  | Login => discard login
  | Logout => logout
  | IsLogged => discard is_logged
  | GetAdmins => discard get_admins
  | GetSites => discard get_sites
  | GetScenarios => discard get_scenarios
  | GetSiteSettings None =>
      raise (TypeError
        "get_site_settings() missing 1 required positional argument: 'site_key'")
  | GetSiteSettings (Some k) => discard (get_site_settings k)
  | GetDevices k => discard (get_devices k)
  | GetEapData mac k => discard (get_eap_data mac k)
  | SetEap2gRadio mac b k => discard (set_eap_2g_radio mac b k)
  | SetEapLedStatus mac n k => discard (set_eap_led_status mac n k)
  | SetEap5gRadio mac b k => discard (set_eap_5g_radio mac b k)
  end.

(** Calls made one after the other on the same object; a caller is free
    to catch an exception and go on, so the state is threaded through
    whatever the outcome. *)
Definition run (cs : list call) (st : state) : state :=
  fold_left (fun s c => snd (invoke c s)) cs st.

(** *** enable_radios.py *)

Record args : Type := mkArgs {
  verbose : bool;
  config : string;
  disable : bool;
  noleds : bool
}.

(** [for df_id, df_row in devices.iterrows(): body] *)
Fixpoint iterrows (body : nat -> dict json -> M unit) (i : nat)
    (rows : list (dict json)) : M unit :=
  match rows with
  | [] => ret tt
  | row :: rest => body i row ;;; iterrows body (S i) rest
  end.

(** The body of the loop of [main]. *)
Definition main_body (a : args) (devices : DataFrame) (radio_status : bool)
    (led_status : Z) (enabling_str : string)
    (df_id : nat) (df_row : dict json) : M unit :=
  mac <- lift (row_getitem devices df_row "mac") ;;
  name <- lift (row_getitem devices df_row "name") ;;
  let mac_address := format_cell devices df_id "mac" mac in
  let device_name := format_cell devices df_id "name" name in
  logging INFO (enabling_str ++ " radios on " ++ device_name
                ++ " (" ++ mac_address ++ ")") ;;;
  set_eap_2g_radio mac_address radio_status None ;;;
  if negb (noleds a) then
    logging INFO (enabling_str ++ " led on " ++ device_name
                  ++ " (" ++ mac_address ++ ")") ;;;
    set_eap_led_status mac_address led_status None ;;;
    ret tt
  else ret tt.

(** [main], from [api.login()] on: the state it starts in holds the
    object that [OmadaAPI(config_fpath=cfg_path, debug=args.verbose)]
    built. *)
Definition main (a : args) : M unit :=
  login ;;;
  devices <- get_devices None ;;
  device_macs <- lift (frame_getitem devices "mac") ;;
  let '(radio_status, led_status, enabling_str) :=
    if negb (disable a) then (true, 1%Z, "enabling")
    else (false, 0%Z, "disabling") in
  iterrows (main_body a devices radio_status led_status enabling_str)
    0 (records devices).

(** ** Reading a trace *)

(** Method, URL and JSON body of a request. *)
Definition wire (r : request) : string * string * option json :=
  (req_mode r, req_url r, req_json r).

(** The [_] query parameter of a request, when it has one. *)
Definition stamp (r : request) : option Z :=
  match dict_get (req_params r) "_" with
  | Some (JInt n) => Some n
  | _ => None
  end.

Definition stamps (rs : list request) : list Z :=
  flat_map (fun r => match stamp r with Some n => [n] | None => [] end) rs.

(** [body["result"]["token"]] *)
Definition nested_token (body : json) : outcome json :=
  match getitem body "result" with
  | Ok inner => getitem inner "token"
  | Raise e => Raise e
  end.

(** A computation that leaves the state alone. *)
Definition stateless {A : Type} (m : M A) : Prop :=
  forall st, snd (m st) = st.

(** ** Dictionaries *)

Lemma dict_get_set_same {V : Type} (k : string) (v : V) (d : dict V) :
  dict_get (dict_set k v d) k = Some v.
Proof.
  induction d as [|[k' v'] rest IH]; simpl.
  - now rewrite String.eqb_refl.
  - destruct (k' =? k)%string eqn:E; simpl; rewrite E; auto.
Qed.

Lemma dict_get_set_other {V : Type} (k k0 : string) (v : V) (d : dict V) :
  k <> k0 -> dict_get (dict_set k v d) k0 = dict_get d k0.
Proof.
  intros Hne. induction d as [|[k' v'] rest IH]; simpl.
  - destruct (k =? k0)%string eqn:E; auto.
    apply String.eqb_eq in E. contradiction.
  - destruct (k' =? k)%string eqn:E; simpl.
    + apply String.eqb_eq in E. subst k'.
      destruct (k =? k0)%string eqn:E0; auto.
      apply String.eqb_eq in E0. contradiction.
    + now rewrite IH.
Qed.

Lemma dict_get_keys {V : Type} (d : dict V) (k : string) (v : V) :
  dict_get d k = Some v -> In k (map fst d).
Proof.
  induction d as [|[k' v'] rest IH]; simpl; [discriminate|].
  destruct (k' =? k)%string eqn:E.
  - apply String.eqb_eq in E. auto.
  - auto.
Qed.

(** ** The monad *)

Lemma stateless_ret {A : Type} (a : A) : stateless (ret a).
Proof. intro st. reflexivity. Qed.

Lemma stateless_lift {A : Type} (o : outcome A) : stateless (lift o).
Proof. intro st. reflexivity. Qed.

Lemma stateless_bind {A B : Type} (m : M A) (k : A -> M B) :
  stateless m -> (forall a, stateless (k a)) -> stateless (bind m k).
Proof.
  intros Hm Hk st. unfold bind. specialize (Hm st).
  destruct (m st) as [[a|e] st1]; simpl in *; subst; auto.
  apply Hk.
Qed.

Lemma snd_bind {A B : Type} (m : M A) (k : A -> M B) (st : state) :
  (forall a, stateless (k a)) -> snd (bind m k st) = snd (m st).
Proof.
  intros Hk. unfold bind.
  destruct (m st) as [[a|e] st1]; simpl; auto. apply Hk.
Qed.

Create HintDb omada.
#[local] Hint Resolve stateless_ret stateless_lift stateless_bind : omada.

(** ** makeApiCall *)

(** The request that [makeApiCall] hands to the session. *)
Local Abbreviation api_request st url mode ep d j inc bare :=
  (mkRequest mode
     (if negb bare then path_to_url (self st) url else url)
     (if inc
      then dict_update (match ep with None => [] | Some p => p end)
             [("token", token (self st)); ("_", JInt (clock (ticks st)))]
      else match ep with None => [] | Some p => p end)
     (if (mode =? "GET")%string then None else d)
     (if (mode =? "GET")%string then None else j)).

Local Abbreviation api_state st r inc :=
  (mkState (self st) (if inc then S (ticks st) else ticks st)
     (sent st ++ [r]) (logged st)).

Lemma makeApiCall_eq url mode ep d j dbg inc bare ser st :
  mode = "GET" \/ mode = "POST" \/ mode = "PATCH" ->
  makeApiCall url mode ep d j dbg inc bare ser st =
  let r := api_request st url mode ep d j inc bare in
  match http (sent st) r with
  | Ok resp =>
      if ser then
        match resp_json resp with
        | Some body => (Ok (Parsed body), api_state st r inc)
        | None => (Raise JSONDecodeError, api_state st r inc)
        end
      else (Ok (Raw resp), api_state st r inc)
  | Raise e => (Raise e, api_state st r inc)
  end.
Proof.
  intros [-> | [-> | ->]]; destruct inc, ser;
    unfold makeApiCall, bind, get_self, get_timestamp, session_request,
      lift, ret, response_json; cbn -[dict_update path_to_url];
    match goal with
    | |- context [http ?p ?r] => destruct (http p r) as [resp|e]
    end; cbn -[dict_update path_to_url]; try reflexivity;
    destruct (resp_json resp); reflexivity.
Qed.

Lemma makeApiCall_unsupported url mode ep d j dbg inc bare ser st :
  mode <> "GET" -> mode <> "POST" -> mode <> "PATCH" ->
  makeApiCall url mode ep d j dbg inc bare ser st =
  (Raise (ValueError ("Unsupported mode " ++ mode)),
   mkState (self st) (if inc then S (ticks st) else ticks st)
     (sent st) (logged st)).
Proof.
  intros H1 H2 H3.
  apply String.eqb_neq in H1, H2, H3.
  unfold makeApiCall, bind, get_self, get_timestamp, raise, ret.
  destruct inc; cbn -[String.eqb append]; rewrite H1, H2, H3;
    destruct st; reflexivity.
Qed.

Lemma makeApiCall_snd url mode ep d j dbg inc bare ser st :
  mode = "GET" \/ mode = "POST" \/ mode = "PATCH" ->
  snd (makeApiCall url mode ep d j dbg inc bare ser st) =
  api_state st (api_request st url mode ep d j inc bare) inc.
Proof.
  intros Hm. rewrite makeApiCall_eq by exact Hm. cbv zeta.
  match goal with
  | |- context [http ?p ?r] => destruct (http p r) as [resp|e]
  end; [destruct ser; [destruct (resp_json resp)|]|]; reflexivity.
Qed.

(** ** login, logout, is_logged *)

Local Abbreviation login_request o :=
  (mkRequest "POST" (path_to_url o "/login") [] None
     (Some (JObj [("username", JStr (login_username o));
                  ("password", JStr (login_password o))]))).

Local Abbreviation logout_request o :=
  (mkRequest "POST" (path_to_url o "/logout") [] None None).

Local Abbreviation status_request st :=
  (mkRequest "GET" (path_to_url (self st) "/loginStatus")
     [("token", token (self st)); ("_", JInt (clock (ticks st)))] None None).

Local Abbreviation with_token o tok :=
  (mkOmadaAPI tok (base_api_path o) (debug o) (baseurl o) (site o)
     (verify o) (login_username o) (login_password o)).

Lemma login_eq st :
  login st =
  let r := login_request (self st) in
  let st1 := mkState (self st) (ticks st) (sent st ++ [r]) (logged st) in
  match http (sent st) r with
  | Ok resp =>
      match resp_json resp with
      | Some body =>
          match nested_token body with
          | Ok tok =>
              (Ok tok,
               mkState (with_token (self st) tok) (ticks st)
                 (sent st ++ [r]) (logged st))
          | Raise e => (Raise e, st1)
          end
      | None => (Raise JSONDecodeError, st1)
      end
  | Raise e => (Raise e, st1)
  end.
Proof.
  unfold login, bind at 1 2, get_self at 1.
  rewrite makeApiCall_eq by auto. cbn -[path_to_url getitem].
  destruct (http _ _) as [resp|e]; [|reflexivity].
  destruct (resp_json resp) as [body|]; [|reflexivity].
  unfold nested_token, bind, lift, result_getitem.
  destruct (getitem body "result") as [inner|e]; [|reflexivity].
  destruct (getitem inner "token") as [tok|e]; reflexivity.
Qed.

Lemma nested_token_raises body e :
  nested_token body = Raise e ->
  e = KeyError "result" \/ e = KeyError "token" \/ exists msg, e = TypeError msg.
Proof.
  unfold nested_token.
  assert (Hget : forall v k x, getitem v k = Raise x ->
                 x = KeyError k \/ exists msg, x = TypeError msg).
  { intros v k x. destruct v; simpl;
      try (intros [= <-]; right; eexists; reflexivity).
    destruct (dict_get fields k); intros [= <-]. left. reflexivity. }
  destruct (getitem body "result") as [inner|e0] eqn:E.
  - intros H. apply Hget in H. destruct H as [H | H]; auto.
  - intros [= <-]. apply Hget in E. destruct E as [E | E]; auto.
Qed.

Lemma logout_eq st :
  logout st =
  let r := logout_request (self st) in
  match http (sent st) r with
  | Ok resp =>
      (Ok tt,
       mkState (self st) (ticks st) (sent st ++ [r])
         (logged st ++
          [if (status_code resp =? 200)%Z then (INFO, "logged out")
           else (WARNING,
                 ("logout failed with status code "
                  ++ str_of_int (status_code resp))%string)]))
  | Raise e =>
      (Raise e, mkState (self st) (ticks st) (sent st ++ [r]) (logged st))
  end.
Proof.
  unfold logout, bind at 1 2, get_self at 1.
  rewrite makeApiCall_eq by auto. cbn -[path_to_url append str_of_int].
  destruct (http _ _) as [resp|e]; [|reflexivity].
  unfold bind, lift, result_status_code.
  destruct (status_code resp =? 200)%Z; reflexivity.
Qed.

Lemma is_logged_eq st :
  is_logged st =
  let r := status_request st in
  let st1 := mkState (self st) (S (ticks st)) (sent st ++ [r]) (logged st) in
  match http (sent st) r with
  | Ok resp => (Ok (status_code resp =? 200)%Z, st1)
  | Raise e => (Raise e, st1)
  end.
Proof.
  unfold is_logged, bind at 1.
  rewrite makeApiCall_eq by auto. cbn -[path_to_url].
  destruct (http _ _) as [resp|e]; [|reflexivity].
  unfold bind, lift, result_status_code, ret.
  destruct (status_code resp =? 200)%Z; reflexivity.
Qed.

(** ** The other methods: one request each *)

Local Abbreviation site_or o k :=
  (match k with None => site o | Some k' => k' end).

Local Abbreviation token_request st mode path body :=
  (mkRequest mode (path_to_url (self st) path)
     [("token", token (self st)); ("_", JInt (clock (ticks st)))] None body).

Local Abbreviation ticked st r :=
  (mkState (self st) (S (ticks st)) (sent st ++ [r]) (logged st)).

Lemma bind_ret_r {A : Type} (m : M A) (st : state) :
  bind m (fun a => ret a) st = m st.
Proof. unfold bind, ret. destruct (m st) as [[a|e] st1]; reflexivity. Qed.

Ltac getter_snd :=
  unfold bind at 1, get_self at 1; cbv beta iota;
  rewrite snd_bind by (intros; auto 10 with omada);
  rewrite makeApiCall_snd by auto; reflexivity.

Lemma get_admins_snd st :
  snd (get_admins st) = ticked st (token_request st "GET" "/users" None).
Proof. unfold get_admins. getter_snd. Qed.

Lemma get_sites_snd st :
  snd (get_sites st) = ticked st (token_request st "GET" "/sites" None).
Proof. unfold get_sites. getter_snd. Qed.

Lemma get_scenarios_snd st :
  snd (get_scenarios st) =
  ticked st (token_request st "GET" "/scenarios" None).
Proof. unfold get_scenarios. getter_snd. Qed.

Lemma get_site_settings_snd k st :
  snd (get_site_settings k st) =
  ticked st (token_request st "GET" ("/sites/" ++ k ++ "/setting") None).
Proof. unfold get_site_settings. getter_snd. Qed.

Lemma get_devices_snd k st :
  snd (get_devices k st) =
  ticked st
    (token_request st "GET"
       ("/sites/" ++ site_or (self st) k ++ "/devices") None).
Proof. unfold get_devices. getter_snd. Qed.

Lemma get_eap_data_snd mac k st :
  snd (get_eap_data mac k st) =
  ticked st
    (token_request st "GET"
       ("/sites/" ++ site_or (self st) k ++ "/eaps/" ++ mac) None).
Proof. unfold get_eap_data. getter_snd. Qed.

Lemma set_eap_2g_radio_call mac b k st :
  set_eap_2g_radio mac b k st =
  makeApiCall ("/sites/" ++ site_or (self st) k ++ "/eaps/" ++ mac) "PATCH"
    None None
    (Some (JObj [("radioSetting2g", JObj [("radioEnable", JBool b)])]))
    (debug (self st)) true false true st.
Proof.
  unfold set_eap_2g_radio, bind at 1, get_self at 1. cbv beta iota.
  apply bind_ret_r.
Qed.

Lemma set_eap_led_status_call mac n k st :
  set_eap_led_status mac n k st =
  makeApiCall ("/sites/" ++ site_or (self st) k ++ "/eaps/" ++ mac) "PATCH"
    None None (Some (JObj [("ledSetting", JInt n)]))
    (debug (self st)) true false true st.
Proof.
  unfold set_eap_led_status, bind at 1, get_self at 1. cbv beta iota.
  apply bind_ret_r.
Qed.

Lemma set_eap_5g_radio_call mac b k st :
  set_eap_5g_radio mac b k st =
  makeApiCall ("/sites/" ++ site_or (self st) k ++ "/eaps/" ++ mac) "PATCH"
    None None
    (Some (JObj [("radioSetting5g", JObj [("radioEnable", JBool b)])]))
    (debug (self st)) true false true st.
Proof.
  unfold set_eap_5g_radio, bind at 1, get_self at 1. cbv beta iota.
  apply bind_ret_r.
Qed.

Lemma discard_snd {A : Type} (m : M A) (st : state) :
  snd (discard m st) = snd (m st).
Proof. unfold discard. apply snd_bind. auto with omada. Qed.

(** What one call does to the state: the request it adds to the trace,
    the query parameters of that request, and the clock readings used. *)
Lemma invoke_effect c st :
  let st' := snd (invoke c st) in
  match c with
  | Login =>
      exists r, sent st' = sent st ++ [r] /\ req_params r = []
                /\ ticks st' = ticks st
  | Logout =>
      exists r, sent st' = sent st ++ [r] /\ req_params r = []
                /\ ticks st' = ticks st /\ self st' = self st
  | GetSiteSettings None => st' = st
  | _ =>
      exists r, sent st' = sent st ++ [r]
                /\ req_params r =
                   [("token", token (self st));
                    ("_", JInt (clock (ticks st)))]
                /\ ticks st' = S (ticks st) /\ self st' = self st
  end.
Proof.
  destruct c as [| | | | | | [k|] | k | mac k | mac b k | mac n k | mac b k];
    cbv zeta; unfold invoke; try rewrite discard_snd.
  - rewrite login_eq. cbv zeta. eexists.
    destruct (http _ _) as [resp|e]; [destruct (resp_json resp) as [body|];
      [destruct (nested_token body)|]|]; simpl; auto.
  - rewrite logout_eq. cbv zeta. eexists.
    destruct (http _ _) as [resp|e]; simpl; auto.
  - rewrite is_logged_eq. cbv zeta. eexists.
    destruct (http _ _) as [resp|e]; simpl; auto.
  - rewrite get_admins_snd. simpl. eauto.
  - rewrite get_sites_snd. simpl. eauto.
  - rewrite get_scenarios_snd. simpl. eauto.
  - rewrite get_site_settings_snd. simpl. eauto.
  - reflexivity.
  - rewrite get_devices_snd. simpl. eauto.
  - rewrite get_eap_data_snd. simpl. eauto.
  - rewrite set_eap_2g_radio_call, makeApiCall_snd by auto. simpl. eauto.
  - rewrite set_eap_led_status_call, makeApiCall_snd by auto. simpl. eauto.
  - rewrite set_eap_5g_radio_call, makeApiCall_snd by auto. simpl. eauto.
Qed.

(** ** Sequences of calls *)

Lemma invoke_self c st :
  c <> Login -> self (snd (invoke c st)) = self st.
Proof.
  intros Hc. pose proof (invoke_effect c st) as H. cbv zeta in H.
  destruct c as [| | | | | | [k|] | k | mac k | mac b k | mac n k | mac b k];
    try congruence;
    try (destruct H as (r & _ & _ & _ & H); exact H).
Qed.

Lemma invoke_step c st :
  exists new,
    sent (snd (invoke c st)) = sent st ++ new /\
    (ticks st <= ticks (snd (invoke c st)))%nat /\
    (stamps new = [] \/ stamps new = [clock (ticks st)]) /\
    Forall (fun r => req_params r = [] \/
                     req_params r = [("token", token (self st));
                                     ("_", JInt (clock (ticks st)))]) new.
Proof.
  pose proof (invoke_effect c st) as H. cbv zeta in H.
  assert (Hnone : forall r, req_params r = [] -> stamps [r] = []).
  { intros r Hr. unfold stamps, stamp. simpl. now rewrite Hr. }
  assert (Hsome : forall r t z,
             req_params r = [("token", t); ("_", JInt z)] ->
             stamps [r] = [z]).
  { intros r t z Hr. unfold stamps, stamp. simpl. now rewrite Hr. }
  destruct c as [| | | | | | [k|] | k | mac k | mac b k | mac n k | mac b k];
    try (destruct H as (r & Hs & Hp & Ht & _); exists [r];
         rewrite Hs, Ht; repeat split; eauto using le_S; fail);
    try (destruct H as (r & Hs & Hp & Ht); exists [r];
         rewrite Hs, Ht; repeat split; eauto; fail).
  exists []. rewrite H, app_nil_r. repeat split; auto.
Qed.

Lemma run_cons c cs st : run (c :: cs) st = run cs (snd (invoke c st)).
Proof. reflexivity. Qed.

Lemma run_self cs st :
  Forall (fun c => c <> Login) cs -> self (run cs st) = self st.
Proof.
  intros H. revert st.
  induction H as [|c cs Hc _ IH]; intros st; [reflexivity|].
  rewrite run_cons, IH. now apply invoke_self.
Qed.

Lemma run_tokens cs st :
  Forall (fun c => c <> Login) cs ->
  exists new,
    sent (run cs st) = sent st ++ new /\
    Forall (fun r => req_params r = [] \/
                     dict_get (req_params r) "token" = Some (token (self st)))
      new.
Proof.
  intros H. revert st.
  induction H as [|c cs Hc _ IH]; intros st.
  - exists []. now rewrite app_nil_r.
  - rewrite run_cons.
    destruct (invoke_step c st) as (new1 & Hs1 & _ & _ & Hp1).
    destruct (IH (snd (invoke c st))) as (new2 & Hs2 & Hp2).
    rewrite (invoke_self c st Hc) in Hp2.
    exists (new1 ++ new2). split.
    + now rewrite Hs2, Hs1, app_assoc.
    + apply Forall_app. split; [|exact Hp2].
      eapply Forall_impl; [|exact Hp1].
      intros r [Hr | Hr]; [now left | right]. now rewrite Hr.
Qed.

Lemma stamps_app rs1 rs2 : stamps (rs1 ++ rs2) = stamps rs1 ++ stamps rs2.
Proof. unfold stamps. apply flat_map_app. Qed.


(** ** Authentication *)

(** C1.  When the controller answers the login request with a JSON body
    whose [result.token] is [tok], [login] returns [tok] and stores it
    in the object; after any later calls other than [login] the object
    still holds [tok], every request those calls made either has no
    query parameters or has [tok] under [token], and any [makeApiCall]
    made with [include_token] on hands the session a request with [tok]
    under [token]. *)
Theorem login_token_attached st resp body tok :
  http (sent st) (login_request (self st)) = Ok resp ->
  resp_json resp = Some body ->
  nested_token body = Ok tok ->
  exists st1,
    login st = (Ok tok, st1) /\
    token (self st1) = tok /\
    forall cs, Forall (fun c => c <> Login) cs ->
      token (self (run cs st1)) = tok /\
      (exists new,
          sent (run cs st1) = sent st1 ++ new /\
          Forall (fun r => req_params r = [] \/
                           dict_get (req_params r) "token" = Some tok) new) /\
      (forall url mode ep d j dbg bare ser r,
          sent (snd (makeApiCall url mode ep d j dbg true bare ser
                       (run cs st1)))
          = sent (run cs st1) ++ [r] ->
          dict_get (req_params r) "token" = Some tok).
Proof.
  intros Hhttp Hbody Htok.
  eexists. split; [|split].
  - rewrite login_eq. cbv zeta. rewrite Hhttp, Hbody, Htok. reflexivity.
  - reflexivity.
  - intros cs Hcs.
    match goal with |- context [run cs ?s] => set (st1 := s) end.
    assert (Hself : token (self (run cs st1)) = tok)
      by now rewrite run_self.
    split; [exact Hself|]. split.
    + destruct (run_tokens cs st1 Hcs) as (new & Hs & Hp). eauto.
    + intros url mode ep d j dbg bare ser r Hsent.
      destruct (string_dec mode "GET") as [Hg|Hg];
        [|destruct (string_dec mode "POST") as [Hp|Hp];
          [|destruct (string_dec mode "PATCH") as [Hq|Hq]]].
      4: { rewrite makeApiCall_unsupported in Hsent by assumption.
           simpl in Hsent. apply (f_equal (@length request)) in Hsent.
           rewrite length_app in Hsent. simpl in Hsent. lia. }
      all: rewrite makeApiCall_snd in Hsent by auto;
        simpl in Hsent; apply app_inv_head in Hsent;
        injection Hsent as <-; cbn [req_params];
        unfold dict_update; cbn [fold_left fst snd];
        rewrite dict_get_set_other by discriminate;
        rewrite dict_get_set_same; now rewrite Hself.
Qed.

(** C4, as the code has it.  When the answer to the login request has no
    [result.token] to extract, [login] raises what the failed step
    raises: [JSONDecodeError] for a body that is not JSON, [KeyError]
    for a missing key, [TypeError] for a value that cannot be
    subscripted by a string.  It is never an exception named
    [AuthError]. *)
Theorem login_missing_token_lookup_error st resp :
  http (sent st) (login_request (self st)) = Ok resp ->
  (forall body tok, resp_json resp = Some body -> nested_token body <> Ok tok) ->
  exists e st1,
    login st = (Raise e, st1) /\
    (e = JSONDecodeError \/ e = KeyError "result" \/ e = KeyError "token"
     \/ exists msg, e = TypeError msg) /\
    exn_name e <> "AuthError".
Proof.
  intros Hhttp Hno.
  assert (Hshape : exists e st1, login st = (Raise e, st1) /\
            (e = JSONDecodeError \/ e = KeyError "result"
             \/ e = KeyError "token" \/ exists msg, e = TypeError msg)).
  { rewrite login_eq. cbv zeta. rewrite Hhttp.
    destruct (resp_json resp) as [body|] eqn:Hb.
    - destruct (nested_token body) as [tok|e] eqn:Ht.
      + exfalso. exact (Hno body tok eq_refl Ht).
      + apply nested_token_raises in Ht.
        do 2 eexists. split; [reflexivity|]. right. exact Ht.
    - do 2 eexists. split; [reflexivity|]. left. reflexivity. }
  destruct Hshape as (e & st1 & Hrun & He).
  exists e, st1. repeat split; auto.
  destruct He as [-> | [-> | [-> | [msg ->]]]]; discriminate.
Qed.

(** C10.  When the answer to the login request has no [result.token] to
    extract, [login] raises and the object is as it was before the call,
    its token included. *)
Theorem failed_login_keeps_token st resp :
  http (sent st) (login_request (self st)) = Ok resp ->
  (forall body tok, resp_json resp = Some body -> nested_token body <> Ok tok) ->
  (exists e, fst (login st) = Raise e) /\
  token (self (snd (login st))) = token (self st) /\
  self (snd (login st)) = self st.
Proof.
  intros Hhttp Hno. rewrite login_eq. cbv zeta. rewrite Hhttp.
  destruct (resp_json resp) as [body|] eqn:Hb; [|simpl; eauto].
  destruct (nested_token body) as [tok|e] eqn:Ht; [|simpl; eauto].
  exfalso. exact (Hno body tok eq_refl Ht).
Qed.

(** C7.  When the status request is answered with some status code,
    [is_logged] returns a boolean and raises nothing; the boolean is
    [True] exactly when the code is 200. *)
Theorem is_logged_iff_200 st resp :
  http (sent st) (status_request st) = Ok resp ->
  exists b st1,
    is_logged st = (Ok b, st1) /\
    (b = true <-> status_code resp = 200%Z) /\
    (b = false <-> status_code resp <> 200%Z).
Proof.
  intros Hhttp. rewrite is_logged_eq. cbv zeta. rewrite Hhttp.
  do 2 eexists. split; [reflexivity|].
  destruct (Z.eqb_spec (status_code resp) 200); split; split;
    intros; congruence.
Qed.

(** C8.  Whatever status code and body answer the logout request,
    [logout] returns normally; the request it sent has no query
    parameters, the body of the answer is not looked at, no clock is
    read, the object is unchanged, and the only other effect is one log
    record: [INFO] for status 200, [WARNING] with the code otherwise. *)
Theorem logout_fire_and_forget st resp :
  http (sent st) (logout_request (self st)) = Ok resp ->
  logout st =
  (Ok tt,
   mkState (self st) (ticks st) (sent st ++ [logout_request (self st)])
     (logged st ++
      [if (status_code resp =? 200)%Z then (INFO, "logged out")
       else (WARNING,
             ("logout failed with status code "
              ++ str_of_int (status_code resp))%string)])).
Proof.
  intros Hhttp. rewrite logout_eq. cbv zeta. now rewrite Hhttp.
Qed.

(** ** Requests *)

(** C2, as the code has it.  When the controller answers the next
    request with a JSON body, [makeApiCall] with [serialize_result] on
    returns that whole body, envelope fields and all, and so do
    [set_eap_2g_radio] and [set_eap_led_status]. *)
Theorem makeApiCall_returns_parsed_body st resp body :
  (forall r, http (sent st) r = Ok resp) ->
  resp_json resp = Some body ->
  (forall url mode ep d j dbg inc bare,
      mode = "GET" \/ mode = "POST" \/ mode = "PATCH" ->
      fst (makeApiCall url mode ep d j dbg inc bare true st)
      = Ok (Parsed body)) /\
  (forall mac b k, fst (set_eap_2g_radio mac b k st) = Ok (Parsed body)) /\
  (forall mac n k, fst (set_eap_led_status mac n k st) = Ok (Parsed body)).
Proof.
  intros Hhttp Hbody.
  assert (Hcall : forall url mode ep d j dbg inc bare,
             mode = "GET" \/ mode = "POST" \/ mode = "PATCH" ->
             fst (makeApiCall url mode ep d j dbg inc bare true st)
             = Ok (Parsed body)).
  { intros. rewrite makeApiCall_eq by assumption. cbv zeta.
    now rewrite Hhttp, Hbody. }
  repeat split; intros.
  - now apply Hcall.
  - rewrite set_eap_2g_radio_call. apply Hcall. auto.
  - rewrite set_eap_led_status_call. apply Hcall. auto.
Qed.

(** C3, as the code has it.  Every call other than [login] and [logout]
    that reaches the network sends one request whose query parameters
    are [token], the token of the object, and [_], the clock reading
    taken for this call; [login] and [logout] both send one request
    without query parameters. *)
Theorem token_and_stamp_except_login_logout c st :
  let st' := snd (invoke c st) in
  match c with
  | Login | Logout =>
      exists r, sent st' = sent st ++ [r] /\ req_params r = []
  | GetSiteSettings None => sent st' = sent st
  | _ =>
      exists r, sent st' = sent st ++ [r] /\
                req_params r = [("token", token (self st));
                                ("_", JInt (clock (ticks st)))]
  end.
Proof.
  pose proof (invoke_effect c st) as H. cbv zeta in *.
  destruct c as [| | | | | | [k|] | k | mac k | mac b k | mac n k | mac b k];
    try (destruct H as (r & Hs & Hp & _); eauto; fail).
  now rewrite H.
Qed.

(** C6, as far as the code goes.  With [site_key] left out,
    [get_devices], [get_eap_data], [set_eap_2g_radio],
    [set_eap_led_status] and [set_eap_5g_radio] send their request to
    the path built from the site of the object. *)
Theorem site_key_defaults_to_session_site st mac b n :
  let o := self st in
  let eap := path_to_url o ("/sites/" ++ site o ++ "/eaps/" ++ mac) in
  (exists r, sent (snd (get_devices None st)) = sent st ++ [r] /\
             req_url r = path_to_url o ("/sites/" ++ site o ++ "/devices")) /\
  (exists r, sent (snd (get_eap_data mac None st)) = sent st ++ [r] /\
             req_url r = eap) /\
  (exists r, sent (snd (set_eap_2g_radio mac b None st)) = sent st ++ [r] /\
             req_url r = eap) /\
  (exists r, sent (snd (set_eap_led_status mac n None st)) = sent st ++ [r] /\
             req_url r = eap) /\
  (exists r, sent (snd (set_eap_5g_radio mac b None st)) = sent st ++ [r] /\
             req_url r = eap).
Proof.
  cbv zeta. repeat split.
  - rewrite get_devices_snd. simpl. eauto.
  - rewrite get_eap_data_snd. simpl. eauto.
  - rewrite set_eap_2g_radio_call, makeApiCall_snd by auto. simpl. eauto.
  - rewrite set_eap_led_status_call, makeApiCall_snd by auto. simpl. eauto.
  - rewrite set_eap_5g_radio_call, makeApiCall_snd by auto. simpl. eauto.
Qed.


(** ** The batch script *)

Lemma has_column_In cols k : has_column cols k = true <-> In k cols.
Proof.
  unfold has_column. rewrite existsb_exists. split.
  - intros (x & Hin & Heq). apply String.eqb_eq in Heq. now subst.
  - intros Hin. exists k. split; [exact Hin | apply String.eqb_refl].
Qed.

Lemma add_column_In cols k c :
  In c (add_column cols k) <-> In c cols \/ c = k.
Proof.
  unfold add_column. destruct (has_column cols k) eqn:E.
  - apply has_column_In in E. split; [tauto|]. intros [H | ->]; auto.
  - rewrite in_app_iff. simpl. split; intros [H | H]; auto.
    destruct H as [<- | []]. auto.
Qed.

Lemma add_columns_In keys : forall cols c,
  In c (fold_left add_column keys cols) <-> In c cols \/ In c keys.
Proof.
  induction keys as [|k keys IH]; intros cols c; simpl.
  - tauto.
  - rewrite IH, add_column_In. split; intros H;
      repeat destruct H as [H | H]; subst; auto.
Qed.

Lemma columns_of_In rows : forall acc c,
  In c (fold_left
          (fun cols row => fold_left add_column (map fst row) cols) rows acc)
  <-> In c acc \/ exists row : dict json, In row rows /\ In c (map fst row).
Proof.
  induction rows as [|row rows IH]; intros acc c; simpl.
  - split; [tauto|]. intros [H | (row & [] & _)]. exact H.
  - rewrite IH, add_columns_In. split.
    + intros [[H | H] | (row' & Hin & Hc)]; eauto.
    + intros [H | (row' & [<- | Hin] & Hc)]; eauto.
Qed.

Lemma has_column_of_row rows (row : dict json) k v :
  In row rows -> dict_get row k = Some v ->
  has_column (columns_of rows) k = true.
Proof.
  intros Hin Hget. apply has_column_In. unfold columns_of.
  apply columns_of_In. right. exists row. split; [exact Hin|].
  eapply dict_get_keys. exact Hget.
Qed.

Lemma get_devices_eq k st :
  get_devices k st =
  let r := token_request st "GET"
             ("/sites/" ++ site_or (self st) k ++ "/devices") None in
  match http (sent st) r with
  | Ok resp =>
      match resp_json resp with
      | Some body =>
          match getitem body "result" with
          | Ok inner => (pd_DataFrame inner, ticked st r)
          | Raise e => (Raise e, ticked st r)
          end
      | None => (Raise JSONDecodeError, ticked st r)
      end
  | Raise e => (Raise e, ticked st r)
  end.
Proof.
  unfold get_devices, bind at 1 2, get_self at 1.
  rewrite makeApiCall_eq by auto. cbn -[path_to_url getitem append].
  destruct (http _ _) as [resp|e]; [|reflexivity].
  destruct (resp_json resp) as [body|]; [|reflexivity].
  unfold bind, lift, result_getitem.
  destruct (getitem body "result") as [inner|e]; reflexivity.
Qed.

(** The shape of a device in the list the controller returns: an object
    with string fields [mac] and [name]. *)
Local Abbreviation device_with mac :=
  (fun d : json => exists fields name,
       d = JObj fields /\ dict_get fields "mac" = Some (JStr mac)
       /\ dict_get fields "name" = Some (JStr name)).

Local Abbreviation row_with mac :=
  (fun row : dict json => exists name,
       dict_get row "mac" = Some (JStr mac)
       /\ dict_get row "name" = Some (JStr name)).

Lemma as_records_devices devs macs :
  Forall2 (fun d mac => device_with mac d) devs macs ->
  exists rows,
    as_records devs = Some rows /\
    Forall2 (fun row mac => row_with mac row) rows macs.
Proof.
  induction 1 as [|d mac devs macs (fields & name & -> & Hm & Hn) _ IH].
  - exists []. split; [reflexivity | constructor].
  - destruct IH as (rows & Hrows & Hall).
    exists (fields :: rows). simpl. rewrite Hrows. split; [reflexivity|].
    constructor; eauto.
Qed.

Local Abbreviation eap_url o mac :=
  (path_to_url o ("/sites/" ++ site o ++ "/eaps/" ++ mac)).

Local Abbreviation radio2g b :=
  (JObj [("radioSetting2g", JObj [("radioEnable", JBool b)])]).

Local Abbreviation led n := (JObj [("ledSetting", JInt n)]).

Local Abbreviation patches_for o a b n :=
  (fun mac : string =>
     ("PATCH", eap_url o mac, Some (radio2g b))
     :: (if noleds a then []
         else [("PATCH", eap_url o mac, Some (led n))])).

Section Loop.

Hypothesis patch_answered :
  forall past r, req_mode r = "PATCH" ->
    exists resp body, http past r = Ok resp /\ resp_json resp = Some body.

Lemma patch_run url body st :
  exists out st',
    makeApiCall url "PATCH" None None (Some body) (debug (self st))
      true false true st = (Ok out, st') /\
    self st' = self st /\
    map wire (sent st') =
    map wire (sent st) ++ [("PATCH", path_to_url (self st) url, Some body)].
Proof.
  rewrite makeApiCall_eq by auto. cbv zeta.
  match goal with
  | |- context [http ?p ?r] =>
      destruct (patch_answered p r eq_refl) as (resp & b & -> & ->)
  end.
  do 2 eexists. split; [reflexivity|]. split; [reflexivity|].
  simpl. now rewrite map_app.
Qed.

Lemma main_body_run a df b n s i row mac st :
  has_column (columns df) "mac" = true ->
  has_column (columns df) "name" = true ->
  row_with mac row ->
  exists st',
    main_body a df b n s i row st = (Ok tt, st') /\
    self st' = self st /\
    map wire (sent st') =
    map wire (sent st) ++ patches_for (self st) a b n mac.
Proof.
  intros Hcm Hcn (name & Hm & Hn).
  unfold main_body, row_getitem, cell. rewrite Hcm, Hcn, Hm, Hn.
  cbn [format_cell].
  unfold bind at 1 2 3, lift at 1 2, logging at 1. cbv beta iota.
  unfold bind at 1. rewrite set_eap_2g_radio_call.
  match goal with
  | |- context [makeApiCall ?u _ _ _ (Some ?body) _ _ _ _ ?s] =>
      destruct (patch_run u body s) as (out & st1 & -> & Hself1 & Hw1)
  end.
  simpl in Hself1, Hw1.
  destruct (noleds a); cbn [negb].
  - exists st1. unfold ret. repeat split; auto.
  - unfold bind at 1, logging at 1. cbv beta iota.
    unfold bind at 1. rewrite set_eap_led_status_call.
    match goal with
    | |- context [makeApiCall ?u _ _ _ (Some ?body) _ _ _ _ ?s] =>
        destruct (patch_run u body s) as (out2 & st2 & -> & Hself2 & Hw2)
    end.
    simpl in Hself2, Hw2. rewrite Hself1 in Hself2, Hw2.
    exists st2. unfold bind, ret. repeat split; auto.
    rewrite Hw2, Hw1, <- app_assoc. reflexivity.
Qed.

Lemma iterrows_run a df b n s :
  has_column (columns df) "mac" = true ->
  has_column (columns df) "name" = true ->
  forall rows macs,
  Forall2 (fun row mac => row_with mac row) rows macs ->
  forall i st,
  exists st',
    iterrows (main_body a df b n s) i rows st = (Ok tt, st') /\
    self st' = self st /\
    map wire (sent st') =
    map wire (sent st) ++ flat_map (patches_for (self st) a b n) macs.
Proof.
  intros Hcm Hcn rows macs Hall.
  induction Hall as [|row mac rows macs Hrow _ IH]; intros i st.
  - exists st. simpl. rewrite app_nil_r. auto.
  - destruct (main_body_run a df b n s i row mac st Hcm Hcn Hrow)
      as (st1 & Hrun1 & Hself1 & Hw1).
    destruct (IH (S i) st1) as (st2 & Hrun2 & Hself2 & Hw2).
    exists st2. cbn [iterrows]. unfold bind at 1. rewrite Hrun1.
    split; [exact Hrun2|]. split; [congruence|].
    rewrite Hw2, Hw1, Hself1. cbn [flat_map].
    now rewrite <- app_assoc.
Qed.

End Loop.

(** C5.  Take a controller that answers the login with a token, the
    device query with a list of devices (objects with string fields
    [mac] and [name]) and every PATCH with some JSON body.  Then [main]
    with [--disable] makes, after the login and the device query, for
    each device in list order one PATCH to [/sites/{site}/eaps/{mac}]
    with body [{"radioSetting2g": {"radioEnable": false}}], followed,
    unless [--no-leds] is given, by one PATCH to the same path with body
    [{"ledSetting": 0}], and nothing else.  No body in the run has a
    [radioSetting5g] key or sets [ledSetting] to 2.  The run ends
    normally when the list has a device. *)
Theorem main_disable_trace a st tok devs macs :
  disable a = true ->
  (forall past r, req_url r = path_to_url (self st) "/login" ->
     exists resp body,
       http past r = Ok resp /\ resp_json resp = Some body
       /\ nested_token body = Ok tok) ->
  (forall past r,
     req_url r
     = path_to_url (self st) ("/sites/" ++ site (self st) ++ "/devices") ->
     exists resp body,
       http past r = Ok resp /\ resp_json resp = Some body
       /\ getitem body "result" = Ok (JArr devs)) ->
  Forall2 (fun d mac => device_with mac d) devs macs ->
  (forall past r, req_mode r = "PATCH" ->
     exists resp body, http past r = Ok resp /\ resp_json resp = Some body) ->
  let o := self st in
  let calls :=
    wire (login_request o)
    :: ("GET", path_to_url o ("/sites/" ++ site o ++ "/devices"), None)
    :: flat_map (patches_for o a false 0%Z) macs in
  map wire (sent (snd (main a st))) = map wire (sent st) ++ calls /\
  Forall (fun w : string * string * option json =>
            forall fields, snd w = Some (JObj fields) ->
              dict_get fields "radioSetting5g" = None /\
              dict_get fields "ledSetting" <> Some (JInt 2)) calls /\
  (devs <> [] -> fst (main a st) = Ok tt).
Proof.
  intros Hdis Hlogin Hdevs Hshape Hpatch. cbv zeta.
  split; [|split].
  2: { constructor; [|constructor].
       - intros fields H. simpl in H. injection H as <-.
         simpl. split; [reflexivity | discriminate].
       - intros fields H. simpl in H. discriminate.
       - apply Forall_flat_map, Forall_forall. intros mac _.
         destruct (noleds a).
         + constructor; [|constructor]. intros fields [= <-].
           simpl. split; [reflexivity | discriminate].
         + constructor; [|constructor; [|constructor]];
             intros fields [= <-]; simpl; split;
             try reflexivity; discriminate. }
  all: unfold main, bind at 1; rewrite login_eq; cbv zeta;
    destruct (Hlogin (sent st) (login_request (self st)) eq_refl)
      as (resp & body & -> & -> & ->);
    unfold bind at 1; rewrite get_devices_eq; cbv zeta;
    match goal with
    | |- context [http ?p ?r] =>
        destruct (Hdevs p r eq_refl) as (resp' & body' & -> & -> & ->)
    end;
    destruct (as_records_devices devs macs Hshape) as (rows & Hrows & Hall);
    unfold pd_DataFrame; rewrite Hrows; unfold lift at 1, bind at 1;
    rewrite Hdis; cbn [negb];
    destruct Hall as [|row mac rows macs Hrow Hall].
  - simpl. rewrite !map_app, <- !app_assoc. reflexivity.
  - destruct Hrow as (name & Hm & Hn).
    assert (Hcm : has_column (columns_of (row :: rows)) "mac" = true)
      by (eapply has_column_of_row; [left; reflexivity | exact Hm]).
    assert (Hcn : has_column (columns_of (row :: rows)) "name" = true)
      by (eapply has_column_of_row; [left; reflexivity | exact Hn]).
    unfold frame_getitem. cbn [columns records]. rewrite Hcm.
    match goal with
    | |- context [iterrows ?f ?i ?rs ?s] =>
        destruct (iterrows_run Hpatch a
                    (mkDataFrame (columns_of (row :: rows)) (row :: rows))
                    false 0%Z "disabling" Hcm Hcn (row :: rows) (mac :: macs)
                    (Forall2_cons _ _ (ex_intro _ name (conj Hm Hn)) Hall)
                    i s) as (st' & Hrun & _ & Hw)
    end.
    rewrite Hrun. cbn [snd]. rewrite Hw. cbn [sent self].
    rewrite !map_app, <- !app_assoc. reflexivity.
  - intros Hne. exfalso. apply Hne.
    inversion Hshape. reflexivity.
  - intros _. destruct Hrow as (name & Hm & Hn).
    assert (Hcm : has_column (columns_of (row :: rows)) "mac" = true)
      by (eapply has_column_of_row; [left; reflexivity | exact Hm]).
    assert (Hcn : has_column (columns_of (row :: rows)) "name" = true)
      by (eapply has_column_of_row; [left; reflexivity | exact Hn]).
    unfold frame_getitem. cbn [columns records]. rewrite Hcm.
    match goal with
    | |- context [iterrows ?f ?i ?rs ?s] =>
        destruct (iterrows_run Hpatch a
                    (mkDataFrame (columns_of (row :: rows)) (row :: rows))
                    false 0%Z "disabling" Hcm Hcn (row :: rows) (mac :: macs)
                    (Forall2_cons _ _ (ex_intro _ name (conj Hm Hn)) Hall)
                    i s) as (st' & Hrun & _ & Hw)
    end.
    rewrite Hrun. reflexivity.
Qed.

(** ** More on makeApiCall *)

Lemma fst_bind_raise {A B : Type} (m : M A) (k : A -> M B) st e :
  fst (m st) = Raise e -> fst (bind m k st) = Raise e.
Proof.
  unfold bind. destruct (m st) as [[a|e'] st1]; simpl; congruence.
Qed.

(** X1.  A mode other than GET, POST and PATCH (the comparison is case
    sensitive) makes [makeApiCall] raise [ValueError] naming the mode.
    Nothing is handed to the session and the object and the log are
    untouched, but with [include_token] on the clock has already been
    read. *)
Theorem unsupported_mode_raises_before_sending
    url mode ep d j dbg inc bare ser st :
  mode <> "GET" -> mode <> "POST" -> mode <> "PATCH" ->
  let res := makeApiCall url mode ep d j dbg inc bare ser st in
  fst res = Raise (ValueError ("Unsupported mode " ++ mode)) /\
  sent (snd res) = sent st /\
  self (snd res) = self st /\
  logged (snd res) = logged st /\
  ticks (snd res) = (if inc then S (ticks st) else ticks st).
Proof.
  intros H1 H2 H3. cbv zeta.
  rewrite makeApiCall_unsupported by assumption.
  repeat split.
Qed.

(** X2.  With mode GET the [data] and [json] arguments are dropped: the
    call behaves as if they had not been given, and the request handed
    to the session has neither. *)
Theorem get_ignores_body url ep d j dbg inc bare ser st :
  makeApiCall url "GET" ep d j dbg inc bare ser st
  = makeApiCall url "GET" ep None None dbg inc bare ser st /\
  exists r,
    sent (snd (makeApiCall url "GET" ep d j dbg inc bare ser st))
    = sent st ++ [r] /\
    req_mode r = "GET" /\ req_data r = None /\ req_json r = None.
Proof.
  split.
  - rewrite !makeApiCall_eq by auto. reflexivity.
  - rewrite makeApiCall_snd by auto. eexists. repeat split.
Qed.

(** X3.  Query parameters given by the caller are merged with the
    injected pair: under [token] and [_] the request carries the token
    of the object and the clock reading, whatever the caller had put
    there, and every other key keeps the caller's value.  With
    [include_token] off the caller's parameters go out unchanged. *)
Theorem injected_params_override_callers url mode ep d j dbg bare ser st :
  mode = "GET" \/ mode = "POST" \/ mode = "PATCH" ->
  (exists r,
      sent (snd (makeApiCall url mode (Some ep) d j dbg true bare ser st))
      = sent st ++ [r] /\
      dict_get (req_params r) "token" = Some (token (self st)) /\
      dict_get (req_params r) "_" = Some (JInt (clock (ticks st))) /\
      forall k, k <> "token" -> k <> "_" ->
                dict_get (req_params r) k = dict_get ep k) /\
  (exists r,
      sent (snd (makeApiCall url mode (Some ep) d j dbg false bare ser st))
      = sent st ++ [r] /\
      req_params r = ep).
Proof.
  intros Hmode. split.
  - rewrite makeApiCall_snd by exact Hmode. eexists.
    split; [reflexivity|]. cbn [req_params]. unfold dict_update.
    cbn [fold_left fst snd]. repeat split.
    + rewrite dict_get_set_other by discriminate. apply dict_get_set_same.
    + apply dict_get_set_same.
    + intros k Hk1 Hk2.
      rewrite !dict_get_set_other by congruence. reflexivity.
  - rewrite makeApiCall_snd by exact Hmode. eexists.
    split; reflexivity.
Qed.

Ltac method_raises H :=
  unfold bind at 1, get_self at 1; cbv beta iota;
  apply fst_bind_raise; rewrite makeApiCall_eq by auto; cbv zeta;
  rewrite ?H; try reflexivity.

(** X4.  When the HTTP layer itself fails, so does every method, with
    the same exception: [is_logged] does not turn the failure into
    [False], and [logout] neither swallows it nor logs anything. *)
Theorem transport_error_propagates c st e :
  (forall r, http (sent st) r = Raise e) ->
  c <> GetSiteSettings None ->
  fst (invoke c st) = Raise e /\
  fst (is_logged st) = Raise e /\
  fst (logout st) = Raise e /\
  logged (snd (logout st)) = logged st.
Proof.
  intros Hhttp Hc.
  assert (Hlog : fst (logout st) = Raise e /\ logged (snd (logout st)) = logged st)
    by (rewrite logout_eq; cbv zeta; rewrite Hhttp; split; reflexivity).
  assert (Hst : fst (is_logged st) = Raise e)
    by (rewrite is_logged_eq; cbv zeta; rewrite Hhttp; reflexivity).
  split; [|split; [exact Hst | exact Hlog]].
  destruct c as [| | | | | | [k|] | k | mac k | mac b k | mac n k | mac b k];
    unfold invoke;
    try (progress unfold discard; apply fst_bind_raise).
  - rewrite login_eq. cbv zeta. rewrite Hhttp. reflexivity.
  - apply Hlog.
  - exact Hst.
  - unfold get_admins. method_raises Hhttp.
  - unfold get_sites. method_raises Hhttp.
  - unfold get_scenarios. method_raises Hhttp.
  - unfold get_site_settings. method_raises Hhttp.
  - congruence.
  - unfold get_devices. method_raises Hhttp.
  - unfold get_eap_data. method_raises Hhttp.
  - rewrite set_eap_2g_radio_call, makeApiCall_eq by auto. cbv zeta.
    rewrite Hhttp. reflexivity.
  - rewrite set_eap_led_status_call, makeApiCall_eq by auto. cbv zeta.
    rewrite Hhttp. reflexivity.
  - rewrite set_eap_5g_radio_call, makeApiCall_eq by auto. cbv zeta.
    rewrite Hhttp. reflexivity.
Qed.

Ltac method_undecodable Hhttp Hbody :=
  unfold bind at 1, get_self at 1; cbv beta iota;
  apply fst_bind_raise; rewrite makeApiCall_eq by auto; cbv zeta;
  rewrite Hhttp, Hbody; reflexivity.

(** X5.  When the answer's body is not JSON, every method that asks for
    the parsed result raises [JSONDecodeError], after the request went
    out; [logout] and [is_logged], which only look at the status code,
    are not affected. *)
Theorem non_json_body_raises c st resp :
  (forall r, http (sent st) r = Ok resp) ->
  resp_json resp = None ->
  fst (invoke c st) =
  match c with
  | Logout | IsLogged => Ok tt
  | GetSiteSettings None =>
      Raise (TypeError
        "get_site_settings() missing 1 required positional argument: 'site_key'")
  | _ => Raise JSONDecodeError
  end.
Proof.
  intros Hhttp Hbody.
  destruct c as [| | | | | | [k|] | k | mac k | mac b k | mac n k | mac b k];
    unfold invoke;
    try (progress unfold discard; apply fst_bind_raise).
  - rewrite login_eq. cbv zeta. rewrite Hhttp, Hbody. reflexivity.
  - rewrite logout_eq. cbv zeta. rewrite Hhttp. reflexivity.
  - unfold discard, bind. rewrite is_logged_eq. cbv zeta.
    rewrite Hhttp. reflexivity.
  - unfold get_admins. method_undecodable Hhttp Hbody.
  - unfold get_sites. method_undecodable Hhttp Hbody.
  - unfold get_scenarios. method_undecodable Hhttp Hbody.
  - unfold get_site_settings. method_undecodable Hhttp Hbody.
  - reflexivity.
  - unfold get_devices. method_undecodable Hhttp Hbody.
  - unfold get_eap_data. method_undecodable Hhttp Hbody.
  - rewrite set_eap_2g_radio_call, makeApiCall_eq by auto. cbv zeta.
    rewrite Hhttp, Hbody. reflexivity.
  - rewrite set_eap_led_status_call, makeApiCall_eq by auto. cbv zeta.
    rewrite Hhttp, Hbody. reflexivity.
  - rewrite set_eap_5g_radio_call, makeApiCall_eq by auto. cbv zeta.
    rewrite Hhttp, Hbody. reflexivity.
Qed.

(** ** What the read operations return *)

Lemma dict_get_None_keys {V : Type} (d : dict V) (k : string) :
  dict_get d k = None -> ~ In k (map fst d).
Proof.
  induction d as [|[k' v'] rest IH]; simpl; [auto|].
  destruct (k' =? k)%string eqn:E; [discriminate|].
  apply String.eqb_neq in E. intros Hnone [Heq | Hin]; [auto|].
  now apply IH.
Qed.

Lemma no_column_without_key rows k :
  (forall row : dict json, In row rows -> dict_get row k = None) ->
  has_column (columns_of rows) k = false.
Proof.
  intros Hnone. destruct (has_column (columns_of rows) k) eqn:E; [|reflexivity].
  apply has_column_In in E. unfold columns_of in E.
  apply columns_of_In in E. destruct E as [[] | (row & Hin & Hk)].
  exfalso. exact (dict_get_None_keys row k (Hnone row Hin) Hk).
Qed.

(** X6.  [get_scenarios] returns whatever the body has under [result]:
    the other fields of the envelope, [errorCode] and [msg], are not
    looked at, so an answer that reports an error is returned like any
    other.  A body without [result] gives [KeyError]. *)
Theorem get_scenarios_returns_result st resp body :
  http (sent st) (token_request st "GET" "/scenarios" None) = Ok resp ->
  resp_json resp = Some body ->
  fst (get_scenarios st) = getitem body "result" /\
  (forall fields code msg v,
      body = JObj (("errorCode", code) :: ("msg", msg) :: ("result", v) :: fields) ->
      fst (get_scenarios st) = Ok v) /\
  (forall fields,
      body = JObj fields -> dict_get fields "result" = None ->
      fst (get_scenarios st) = Raise (KeyError "result")).
Proof.
  intros Hhttp Hbody.
  assert (Heq : fst (get_scenarios st) = getitem body "result").
  { unfold get_scenarios, bind at 1 2, get_self at 1.
    rewrite makeApiCall_eq by auto. cbn -[path_to_url getitem append].
    rewrite Hhttp, Hbody. unfold lift, result_getitem. reflexivity. }
  split; [exact Heq|]. split.
  - intros fields code msg v ->. rewrite Heq. reflexivity.
  - intros fields -> Hnone. rewrite Heq. simpl. now rewrite Hnone.
Qed.

(** X7.  [get_admins] and [get_sites] read [result.data]: a list of
    objects there comes back as a frame with one row per object, in the
    order of the list; when [data] cannot be read from [result] the
    lookup's exception comes out, [KeyError] for a missing key. *)
Theorem admins_and_sites_read_result_data st resp body inner :
  (forall r, http (sent st) r = Ok resp) ->
  resp_json resp = Some body ->
  getitem body "result" = Ok inner ->
  (forall items rows,
      getitem inner "data" = Ok (JArr items) ->
      as_records items = Some rows ->
      fst (get_admins st) = Ok (mkDataFrame (columns_of rows) rows) /\
      fst (get_sites st) = Ok (mkDataFrame (columns_of rows) rows)) /\
  (forall e,
      getitem inner "data" = Raise e ->
      fst (get_admins st) = Raise e /\ fst (get_sites st) = Raise e) /\
  (forall fields,
      inner = JObj fields -> dict_get fields "data" = None ->
      fst (get_admins st) = Raise (KeyError "data") /\
      fst (get_sites st) = Raise (KeyError "data")).
Proof.
  intros Hhttp Hbody Hres.
  assert (Ha : fst (get_admins st) =
               match getitem inner "data" with
               | Ok data => pd_DataFrame data
               | Raise e => Raise e
               end).
  { unfold get_admins, bind at 1 2, get_self at 1.
    rewrite makeApiCall_eq by auto. cbv zeta. rewrite Hhttp, Hbody.
    unfold bind, lift, result_getitem. rewrite Hres.
    destruct (getitem inner "data"); reflexivity. }
  assert (Hs : fst (get_sites st) =
               match getitem inner "data" with
               | Ok data => pd_DataFrame data
               | Raise e => Raise e
               end).
  { unfold get_sites, bind at 1 2, get_self at 1.
    rewrite makeApiCall_eq by auto. cbv zeta. rewrite Hhttp, Hbody.
    unfold bind, lift, result_getitem. rewrite Hres.
    destruct (getitem inner "data"); reflexivity. }
  rewrite Ha, Hs. split; [|split].
  - intros items rows -> Hrows. unfold pd_DataFrame. rewrite Hrows.
    split; reflexivity.
  - intros e ->. split; reflexivity.
  - intros fields -> Hnone. simpl. rewrite Hnone. split; reflexivity.
Qed.



(** ** Which request a method sends *)

(** X10.  A [site_key] that is given is the one used, whatever the site
    of the object: every method that takes one sends its request to the
    path built from it. *)
Theorem explicit_site_key_used st k mac b n :
  let o := self st in
  let eap := path_to_url o ("/sites/" ++ k ++ "/eaps/" ++ mac) in
  (exists r, sent (snd (get_site_settings k st)) = sent st ++ [r] /\
             req_url r = path_to_url o ("/sites/" ++ k ++ "/setting")) /\
  (exists r, sent (snd (get_devices (Some k) st)) = sent st ++ [r] /\
             req_url r = path_to_url o ("/sites/" ++ k ++ "/devices")) /\
  (exists r, sent (snd (get_eap_data mac (Some k) st)) = sent st ++ [r] /\
             req_url r = eap) /\
  (exists r, sent (snd (set_eap_2g_radio mac b (Some k) st)) = sent st ++ [r] /\
             req_url r = eap) /\
  (exists r, sent (snd (set_eap_led_status mac n (Some k) st))
             = sent st ++ [r] /\
             req_url r = eap) /\
  (exists r, sent (snd (set_eap_5g_radio mac b (Some k) st)) = sent st ++ [r] /\
             req_url r = eap).
Proof.
  cbv zeta. repeat split.
  - rewrite get_site_settings_snd. simpl. eauto.
  - rewrite get_devices_snd. simpl. eauto.
  - rewrite get_eap_data_snd. simpl. eauto.
  - rewrite set_eap_2g_radio_call, makeApiCall_snd by auto. simpl. eauto.
  - rewrite set_eap_led_status_call, makeApiCall_snd by auto. simpl. eauto.
  - rewrite set_eap_5g_radio_call, makeApiCall_snd by auto. simpl. eauto.
Qed.

(** X11.  Each of the three mutations hands the session exactly one
    request and reads the clock once: a PATCH to the access point's
    path, with the token and the clock reading as query parameters, no
    form data, and as JSON body [{"radioSetting2g": {"radioEnable": b}}],
    [{"radioSetting5g": {"radioEnable": b}}] or [{"ledSetting": n}].
    The LED status is sent as given, whatever integer it is.  Nothing
    else in the state changes, whatever the answer. *)
Theorem setters_send_exact_patch st mac b n k :
  let path := ("/sites/" ++ site_or (self st) k ++ "/eaps/" ++ mac)%string in
  snd (set_eap_2g_radio mac b k st)
  = ticked st (token_request st "PATCH" path
                 (Some (JObj [("radioSetting2g",
                               JObj [("radioEnable", JBool b)])]))) /\
  snd (set_eap_5g_radio mac b k st)
  = ticked st (token_request st "PATCH" path
                 (Some (JObj [("radioSetting5g",
                               JObj [("radioEnable", JBool b)])]))) /\
  snd (set_eap_led_status mac n k st)
  = ticked st (token_request st "PATCH" path
                 (Some (JObj [("ledSetting", JInt n)]))).
Proof.
  cbv zeta. repeat split.
  - rewrite set_eap_2g_radio_call, makeApiCall_snd by auto. reflexivity.
  - rewrite set_eap_5g_radio_call, makeApiCall_snd by auto. reflexivity.
  - rewrite set_eap_led_status_call, makeApiCall_snd by auto. reflexivity.
Qed.

(** ** The batch script, in full *)

Local Abbreviation devices_request st tok :=
  (mkRequest "GET"
     (path_to_url (self st) ("/sites/" ++ site (self st) ++ "/devices"))
     [("token", tok); ("_", JInt (clock (ticks st)))] None None).

(** The state [main] is in when the loop starts. *)
Local Abbreviation loop_start st tok :=
  (mkState (with_token (self st) tok) (S (ticks st))
     (sent st ++ [login_request (self st); devices_request st tok])
     (logged st)).

Local Abbreviation policy_radio a := (negb (disable a)).
Local Abbreviation policy_led a := (if disable a then 0%Z else 1%Z).
Local Abbreviation policy_str a :=
  (if disable a then "disabling" else "enabling").

Local Abbreviation logs_for a s mac name :=
  ((INFO, (s ++ " radios on " ++ name ++ " (" ++ mac ++ ")")%string)
   :: (if noleds a then []
       else [(INFO, (s ++ " led on " ++ name ++ " (" ++ mac ++ ")")%string)])).

Local Abbreviation row_of mn :=
  (fun row : dict json =>
     dict_get row "mac" = Some (JStr (fst mn))
     /\ dict_get row "name" = Some (JStr (snd mn))).

Local Abbreviation answered url :=
  (forall past r, req_mode r = "PATCH" -> req_url r = url ->
     exists resp body, http past r = Ok resp /\ resp_json resp = Some body).

Lemma main_prefix a st tok devs rows :
  (forall past r, req_url r = path_to_url (self st) "/login" ->
     exists resp body,
       http past r = Ok resp /\ resp_json resp = Some body
       /\ nested_token body = Ok tok) ->
  (forall past r,
     req_url r
     = path_to_url (self st) ("/sites/" ++ site (self st) ++ "/devices") ->
     exists resp body,
       http past r = Ok resp /\ resp_json resp = Some body
       /\ getitem body "result" = Ok (JArr devs)) ->
  as_records devs = Some rows ->
  main a st =
  let df := mkDataFrame (columns_of rows) rows in
  if has_column (columns_of rows) "mac"
  then iterrows (main_body a df (policy_radio a) (policy_led a) (policy_str a))
         0 rows (loop_start st tok)
  else (Raise (KeyError "mac"), loop_start st tok).
Proof.
  intros Hlogin Hdevs Hrows.
  unfold main, bind at 1. rewrite login_eq. cbv zeta.
  destruct (Hlogin (sent st) (login_request (self st)) eq_refl)
    as (resp & body & -> & -> & ->).
  unfold bind at 1. rewrite get_devices_eq. cbv zeta.
  match goal with
  | |- context [http ?p ?r] =>
      destruct (Hdevs p r eq_refl) as (resp' & body' & -> & -> & ->)
  end.
  unfold pd_DataFrame. rewrite Hrows. unfold lift at 1, bind at 1.
  unfold frame_getitem. cbn [columns records self ticks sent logged].
  rewrite <- app_assoc. cbn [app].
  destruct (has_column (columns_of rows) "mac"); [|reflexivity].
  destruct (disable a); reflexivity.
Qed.

Lemma patch_effect url body st :
  answered (path_to_url (self st) url) ->
  exists out,
    makeApiCall url "PATCH" None None (Some body) (debug (self st))
      true false true st
    = (Ok out, ticked st (token_request st "PATCH" url (Some body))).
Proof.
  intros Hans. rewrite makeApiCall_eq by auto.
  cbn -[path_to_url append].
  match goal with
  | |- context [http ?p ?r] =>
      destruct (Hans p r eq_refl eq_refl) as (resp & b & -> & ->)
  end.
  eexists. reflexivity.
Qed.

Lemma main_body_effect a df b n s i row mn st :
  has_column (columns df) "mac" = true ->
  has_column (columns df) "name" = true ->
  row_of mn row ->
  answered (eap_url (self st) (fst mn)) ->
  exists st' new,
    main_body a df b n s i row st = (Ok tt, st') /\
    self st' = self st /\
    sent st' = sent st ++ new /\
    map wire new = patches_for (self st) a b n (fst mn) /\
    Forall (fun r => dict_get (req_params r) "token"
                     = Some (token (self st))) new /\
    logged st' = logged st ++ logs_for a s (fst mn) (snd mn).
Proof.
  intros Hcm Hcn [Hm Hn] Hans.
  unfold main_body, row_getitem, cell. rewrite Hcm, Hcn, Hm, Hn.
  cbn [format_cell].
  unfold bind at 1 2 3, lift at 1 2, logging at 1. cbv beta iota.
  unfold bind at 1. rewrite set_eap_2g_radio_call.
  match goal with
  | |- context [makeApiCall ?u _ _ _ (Some ?body) _ _ _ _ ?s] =>
      destruct (patch_effect u body s Hans) as (out & ->)
  end.
  destruct (noleds a); cbn [negb].
  - do 2 eexists. unfold ret.
    split; [reflexivity|]. split; [reflexivity|].
    split; [reflexivity|]. split; [reflexivity|].
    split; [|reflexivity]. repeat constructor.
  - unfold bind at 1, logging at 1. cbv beta iota.
    unfold bind at 1. rewrite set_eap_led_status_call.
    match goal with
    | |- context [makeApiCall ?u _ _ _ (Some ?body) _ _ _ _ ?s] =>
        destruct (patch_effect u body s Hans) as (out2 & ->)
    end.
    do 2 eexists. unfold bind, ret.
    split; [reflexivity|]. split; [reflexivity|].
    split; [cbn [sent]; rewrite <- app_assoc; reflexivity|].
    split; [reflexivity|].
    split; [repeat constructor|].
    cbn [logged]. rewrite <- app_assoc. reflexivity.
Qed.

Lemma iterrows_effect a df b n s :
  has_column (columns df) "mac" = true ->
  has_column (columns df) "name" = true ->
  forall rows infos,
  Forall2 (fun row mn => row_of mn row) rows infos ->
  forall i st,
  (forall mac, In mac (map fst infos) -> answered (eap_url (self st) mac)) ->
  exists st' new,
    iterrows (main_body a df b n s) i rows st = (Ok tt, st') /\
    self st' = self st /\
    sent st' = sent st ++ new /\
    map wire new = flat_map (patches_for (self st) a b n) (map fst infos) /\
    Forall (fun r => dict_get (req_params r) "token"
                     = Some (token (self st))) new /\
    logged st' = logged st
                 ++ flat_map (fun mn => logs_for a s (fst mn) (snd mn)) infos.
Proof.
  intros Hcm Hcn rows infos Hall.
  induction Hall as [|row mn rows infos Hrow _ IH]; intros i st Hans.
  - exists st, []. simpl. rewrite !app_nil_r. repeat split; constructor.
  - destruct (main_body_effect a df b n s i row mn st Hcm Hcn Hrow
                (Hans (fst mn) (or_introl eq_refl)))
      as (st1 & new1 & Hrun1 & Hself1 & Hsent1 & Hw1 & Htok1 & Hlog1).
    destruct (IH (S i) st1) as (st2 & new2 & Hrun2 & Hself2 & Hsent2 & Hw2
                                 & Htok2 & Hlog2).
    { intros mac Hin. rewrite Hself1. apply Hans. right. exact Hin. }
    exists st2, (new1 ++ new2). cbn [iterrows]. unfold bind at 1.
    rewrite Hrun1. split; [exact Hrun2|]. split; [congruence|].
    split; [rewrite Hsent2, Hsent1; apply eq_sym, app_assoc|].
    split; [rewrite map_app, Hw1, Hw2, Hself1; reflexivity|].
    split; [apply Forall_app; split; [exact Htok1|];
            rewrite <- Hself1; exact Htok2|].
    rewrite Hlog2, Hlog1. cbn [flat_map map]. apply eq_sym, app_assoc.
Qed.

Lemma as_records_infos devs infos :
  Forall2 (fun d mn => exists fields, d = JObj fields /\ row_of mn fields)
    devs infos ->
  exists rows,
    as_records devs = Some rows /\
    Forall2 (fun row mn => row_of mn row) rows infos.
Proof.
  induction 1 as [|d mn devs infos (fields & -> & Hrow) _ IH].
  - exists []. split; [reflexivity | constructor].
  - destruct IH as (rows & Hrows & Hall).
    exists (fields :: rows). simpl. rewrite Hrows.
    split; [reflexivity | constructor; assumption].
Qed.

(** A whole run of [main] against a controller that answers the login,
    the device query and the PATCH calls for the listed devices. *)
Lemma main_effect a st tok devs infos :
  (forall past r, req_url r = path_to_url (self st) "/login" ->
     exists resp body,
       http past r = Ok resp /\ resp_json resp = Some body
       /\ nested_token body = Ok tok) ->
  (forall past r,
     req_url r
     = path_to_url (self st) ("/sites/" ++ site (self st) ++ "/devices") ->
     exists resp body,
       http past r = Ok resp /\ resp_json resp = Some body
       /\ getitem body "result" = Ok (JArr devs)) ->
  Forall2 (fun d mn => exists fields, d = JObj fields /\ row_of mn fields)
    devs infos ->
  (forall mac, In mac (map fst infos) -> answered (eap_url (self st) mac)) ->
  exists st' new,
    main a st
    = (match infos with [] => Raise (KeyError "mac") | _ => Ok tt end, st') /\
    self st' = with_token (self st) tok /\
    sent st' = sent st ++ login_request (self st)
                          :: devices_request st tok :: new /\
    map wire new
    = flat_map (patches_for (self st) a (policy_radio a) (policy_led a))
        (map fst infos) /\
    Forall (fun r => dict_get (req_params r) "token" = Some tok) new /\
    logged st' = logged st
                 ++ flat_map (fun mn => logs_for a (policy_str a)
                                          (fst mn) (snd mn)) infos.
Proof.
  intros Hlogin Hdevs Hshape Hans.
  pose proof (as_records_infos devs infos Hshape) as Hrec.
  destruct Hrec as (rows & Hrows & Hall).
  rewrite (main_prefix a st tok devs rows Hlogin Hdevs Hrows). cbv zeta.
  destruct Hall as [|row mn rows infos Hrow Hall].
  - exists (loop_start st tok), []. cbn.
    repeat split; try constructor. now rewrite app_nil_r.
  - destruct Hrow as [Hm Hn].
    assert (Hcm : has_column (columns_of (row :: rows)) "mac" = true)
      by (eapply has_column_of_row; [left; reflexivity | exact Hm]).
    assert (Hcn : has_column (columns_of (row :: rows)) "name" = true)
      by (eapply has_column_of_row; [left; reflexivity | exact Hn]).
    rewrite Hcm.
    destruct (iterrows_effect a
                (mkDataFrame (columns_of (row :: rows)) (row :: rows))
                (policy_radio a) (policy_led a) (policy_str a) Hcm Hcn
                (row :: rows) (mn :: infos)
                (Forall2_cons _ _ (conj Hm Hn) Hall) 0 (loop_start st tok) Hans)
      as (st' & new & Hrun & Hself & Hsent & Hw & Htok & Hlog).
    exists st', new. rewrite Hrun.
    split; [reflexivity|]. split; [exact Hself|].
    split; [rewrite Hsent; cbn [sent]; rewrite <- app_assoc; reflexivity|].
    split; [exact Hw|]. split; [exact Htok | exact Hlog].
Qed.

Local Abbreviation login_answered st tok :=
  (forall past r, req_url r = path_to_url (self st) "/login" ->
     exists resp body,
       http past r = Ok resp /\ resp_json resp = Some body
       /\ nested_token body = Ok tok).

Local Abbreviation devices_answered st devs :=
  (forall past r,
     req_url r
     = path_to_url (self st) ("/sites/" ++ site (self st) ++ "/devices") ->
     exists resp body,
       http past r = Ok resp /\ resp_json resp = Some body
       /\ getitem body "result" = Ok (JArr devs)).

Local Abbreviation devices_are devs infos :=
  (Forall2 (fun (d : json) (mn : string * string) =>
              exists fields, d = JObj fields
                /\ dict_get fields "mac" = Some (JStr (fst mn))
                /\ dict_get fields "name" = Some (JStr (snd mn)))
     devs infos).

Local Abbreviation patch_answered_always :=
  (forall past r, req_mode r = "PATCH" ->
     exists resp body, http past r = Ok resp /\ resp_json resp = Some body).

(** X12.  Without [--disable], [main] switches things on: after the
    login and the device query it sends, for each device in list order,
    a PATCH with body [{"radioSetting2g": {"radioEnable": true}}] and,
    unless [--no-leds] is given, a PATCH with body [{"ledSetting": 1}],
    and nothing else; with a device in the list it ends normally. *)
Theorem main_enable_trace a st tok devs infos :
  disable a = false ->
  login_answered st tok ->
  devices_answered st devs ->
  devices_are devs infos ->
  patch_answered_always ->
  let o := self st in
  map wire (sent (snd (main a st)))
  = map wire (sent st)
    ++ wire (login_request o)
    :: ("GET", path_to_url o ("/sites/" ++ site o ++ "/devices"), None)
    :: flat_map (patches_for o a true 1%Z) (map fst infos) /\
  (infos <> [] -> fst (main a st) = Ok tt).
Proof.
  intros Hen Hlogin Hdevs Hshape Hpatch. cbv zeta.
  destruct (main_effect a st tok devs infos Hlogin Hdevs Hshape)
    as (st' & new & Hrun & _ & Hsent & Hw & _ & _).
  { intros mac _ past r Hmode _. exact (Hpatch past r Hmode). }
  rewrite Hrun. cbn [fst snd]. rewrite Hen in Hw. split.
  - rewrite Hsent, map_app. cbn [map]. rewrite Hw. reflexivity.
  - intros Hne. destruct infos; [contradiction | reflexivity].
Qed.

(** X13.  With an empty device list [main] does not end normally: after
    the login and the device query it raises [KeyError] for [mac], the
    frame having no columns.  Nothing else is sent or logged. *)
Theorem main_empty_device_list_raises a st tok :
  login_answered st tok ->
  devices_answered st [] ->
  main a st = (Raise (KeyError "mac"), loop_start st tok).
Proof.
  intros Hlogin Hdevs.
  rewrite (main_prefix a st tok [] [] Hlogin Hdevs eq_refl). reflexivity.
Qed.

(** X14.  When the devices have a [mac] field but none has a [name],
    [main] raises [KeyError] for [name] at the first device, before any
    PATCH: the session has seen the login and the device query only,
    and nothing is logged. *)
Theorem main_devices_without_name_raise a st tok devs rows :
  login_answered st tok ->
  devices_answered st devs ->
  as_records devs = Some rows ->
  (exists row v, In row rows /\ dict_get row "mac" = Some v) ->
  (forall row, In row rows -> dict_get row "name" = None) ->
  main a st = (Raise (KeyError "name"), loop_start st tok).
Proof.
  intros Hlogin Hdevs Hrows (row & v & Hin & Hmac) Hnoname.
  rewrite (main_prefix a st tok devs rows Hlogin Hdevs Hrows). cbv zeta.
  pose proof (has_column_of_row rows row "mac" v Hin Hmac) as Hcm.
  pose proof (no_column_without_key rows "name" Hnoname) as Hcn.
  rewrite Hcm. destruct rows as [|row0 rest]; [destruct Hin|].
  cbn [iterrows]. unfold bind at 1, main_body, row_getitem.
  cbn [columns]. rewrite Hcm, Hcn. reflexivity.
Qed.

Lemma iterrows_app body rows1 rows2 : forall i st,
  iterrows body i (rows1 ++ rows2) st =
  match iterrows body i rows1 st with
  | (Ok _, st1) => iterrows body (i + length rows1) rows2 st1
  | (Raise e, st1) => (Raise e, st1)
  end.
Proof.
  induction rows1 as [|row rows1 IH]; intros i st.
  - simpl. now rewrite Nat.add_0_r.
  - cbn [app iterrows length]. unfold bind.
    destruct (body i row st) as [[u|e] st1]; [|reflexivity].
    rewrite IH, Nat.add_succ_r. reflexivity.
Qed.

Lemma main_body_fails a df b n s i row mn st e :
  has_column (columns df) "mac" = true ->
  has_column (columns df) "name" = true ->
  row_of mn row ->
  (forall past r, req_mode r = "PATCH" ->
     req_url r = eap_url (self st) (fst mn) -> http past r = Raise e) ->
  exists st' r,
    main_body a df b n s i row st = (Raise e, st') /\
    sent st' = sent st ++ [r] /\
    wire r = ("PATCH", eap_url (self st) (fst mn), Some (radio2g b)).
Proof.
  intros Hcm Hcn [Hm Hn] Hfail.
  unfold main_body, row_getitem, cell. rewrite Hcm, Hcn, Hm, Hn.
  cbn [format_cell].
  unfold bind at 1 2 3, lift at 1 2, logging at 1. cbv beta iota.
  unfold bind at 1. rewrite set_eap_2g_radio_call.
  rewrite makeApiCall_eq by auto. cbn -[path_to_url append].
  match goal with
  | |- context [http ?p ?r] => rewrite (Hfail p r eq_refl eq_refl)
  end.
  do 2 eexists. split; [reflexivity|]. split; reflexivity.
Qed.

(** X15.  [main] stops at the first call that fails.  When the HTTP
    layer raises on the PATCH for one device, [main] ends with that
    exception; the devices before it got their calls, the failing
    device got the radio call only, and the devices after it got
    nothing. *)
Theorem main_stops_at_failed_patch a st tok devs infos1 bad infos2 e :
  login_answered st tok ->
  devices_answered st devs ->
  devices_are devs (infos1 ++ bad :: infos2) ->
  (forall mac, In mac (map fst infos1) -> answered (eap_url (self st) mac)) ->
  (forall past r, req_mode r = "PATCH" ->
     req_url r = eap_url (self st) (fst bad) -> http past r = Raise e) ->
  let o := self st in
  fst (main a st) = Raise e /\
  map wire (sent (snd (main a st)))
  = map wire (sent st)
    ++ wire (login_request o)
    :: ("GET", path_to_url o ("/sites/" ++ site o ++ "/devices"), None)
    :: flat_map (patches_for o a (policy_radio a) (policy_led a))
         (map fst infos1)
    ++ [("PATCH", eap_url o (fst bad), Some (radio2g (policy_radio a)))].
Proof.
  intros Hlogin Hdevs Hshape Hans Hfail. cbv zeta.
  destruct (as_records_infos devs _ Hshape) as (rows & Hrows & Hall).
  apply Forall2_app_inv_r in Hall.
  destruct Hall as (rows1 & rows' & Hall1 & Hall' & ->).
  inversion Hall' as [|rowb mn rows2 infos' Hrowb Hall2]; subst.
  rewrite (main_prefix a st tok devs _ Hlogin Hdevs Hrows). cbv zeta.
  assert (Hin : In rowb (rows1 ++ rowb :: rows2)) by (apply in_elt).
  assert (Hcm : has_column (columns_of (rows1 ++ rowb :: rows2)) "mac" = true)
    by (eapply has_column_of_row; [exact Hin | apply Hrowb]).
  assert (Hcn : has_column (columns_of (rows1 ++ rowb :: rows2)) "name" = true)
    by (eapply has_column_of_row; [exact Hin | apply Hrowb]).
  rewrite Hcm, iterrows_app.
  destruct (iterrows_effect a
              (mkDataFrame (columns_of (rows1 ++ rowb :: rows2))
                 (rows1 ++ rowb :: rows2))
              (policy_radio a) (policy_led a) (policy_str a) Hcm Hcn
              rows1 infos1 Hall1 0 (loop_start st tok) Hans)
    as (st1 & new & -> & Hself1 & Hsent1 & Hw1 & _ & _).
  cbn [iterrows]. unfold bind.
  destruct (main_body_fails a
              (mkDataFrame (columns_of (rows1 ++ rowb :: rows2))
                 (rows1 ++ rowb :: rows2))
              (policy_radio a) (policy_led a) (policy_str a)
              (0 + length rows1) rowb bad st1 e Hcm Hcn Hrowb)
    as (st2 & r & -> & Hsent2 & Hw2).
  { rewrite Hself1. exact Hfail. }
  cbn [fst snd]. split; [reflexivity|].
  rewrite Hsent2, Hsent1. cbn [sent]. rewrite !map_app. cbn [map].
  rewrite Hw1, Hw2, Hself1. rewrite <- !app_assoc. reflexivity.
Qed.


(** X17.  [main] authenticates with the token of its own login: the
    login request has no query parameters, every request after it
    carries the token the login returned, whatever token the object
    held before, and that token is what the object holds at the end. *)
Theorem main_requests_carry_login_token a st tok devs infos :
  login_answered st tok ->
  devices_answered st devs ->
  devices_are devs infos ->
  patch_answered_always ->
  exists first rest,
    sent (snd (main a st)) = sent st ++ first :: rest /\
    req_params first = [] /\
    Forall (fun r => dict_get (req_params r) "token" = Some tok) rest /\
    length rest
    = S (length (flat_map (patches_for (self st) a false 0%Z)
                   (map fst infos))) /\
    token (self (snd (main a st))) = tok.
Proof.
  intros Hlogin Hdevs Hshape Hpatch.
  destruct (main_effect a st tok devs infos Hlogin Hdevs Hshape)
    as (st' & new & Hrun & Hself & Hsent & Hw & Htok & _).
  { intros mac _ past r Hmode _. exact (Hpatch past r Hmode). }
  rewrite Hrun. cbn [snd]. do 2 eexists.
  split; [exact Hsent|]. split; [reflexivity|].
  split; [constructor; [reflexivity | exact Htok]|].
  split; [|rewrite Hself; reflexivity].
  cbn [length]. f_equal.
  rewrite <- (length_map wire new), Hw.
  clear. induction (map fst infos) as [|mac macs IH]; [reflexivity|].
  cbn [flat_map]. rewrite !length_app, IH.
  destruct (noleds a); reflexivity.
Qed.

(** ** The constructor *)


(** X19.  [login] posts the credentials the constructor stored, to
    [/api/v2/login] under the base URL it stored, without query
    parameters: the ones of the configuration file when there is one,
    otherwise the prompted ones and the [baseurl] argument. *)
Theorem login_sends_stored_credentials cfg b s v d p o w :
  init cfg b s v d p = Ok (o, w) ->
  let used_url := match cfg with
                  | Some c => match cfg_baseurl c with Some u => u | None => b end
                  | None => b
                  end in
  let used_name := match cfg with
                   | Some c => match cfg_username c with
                               | Some u => u | None => fst p end
                   | None => fst p
                   end in
  let used_password := match cfg with
                       | Some c => match cfg_password c with
                                   | Some u => u | None => snd p end
                       | None => snd p
                       end in
  sent (snd (login (mkState o 0 [] [])))
  = [mkRequest "POST" (used_url ++ "/api/v2/login") [] None
       (Some (JObj [("username", JStr used_name);
                    ("password", JStr used_password)]))].
Proof.
  intros Hinit. cbv zeta.
  assert (Ho : baseurl o
               = match cfg with
                 | Some c => match cfg_baseurl c with Some u => u | None => b end
                 | None => b
                 end /\
               base_api_path o = "/api/v2" /\
               login_username o
               = match cfg with
                 | Some c => match cfg_username c with
                             | Some u => u | None => fst p end
                 | None => fst p
                 end /\
               login_password o
               = match cfg with
                 | Some c => match cfg_password c with
                             | Some u => u | None => snd p end
                 | None => snd p
                 end).
  { unfold init in Hinit. destruct cfg as [c|].
    - destruct (cfg_baseurl c), (cfg_site c), (cfg_verify c),
        (cfg_username c), (cfg_password c); try discriminate.
      injection Hinit as <- _. repeat split.
    - destruct p as [u pw]. injection Hinit as <- _. repeat split. }
  destruct Ho as (Hb & Hp & Hu & Hw).
  assert (Hsent : sent (snd (login (mkState o 0 [] [])))
                  = [login_request o]).
  { rewrite login_eq. cbv zeta.
    destruct (http _ _) as [resp|e];
      [destruct (resp_json resp) as [body|];
       [destruct (nested_token body)|]|]; reflexivity. }
  rewrite Hsent. unfold path_to_url. rewrite Hb, Hp, Hu, Hw. reflexivity.
Qed.

(** X20.  An object that has not logged in holds no token, and a
    token-including call made with it sends [None] under [token]: the
    code does not refuse to call before [login]. *)
Theorem calls_before_login_send_no_token cfg b s v d p o w c t :
  init cfg b s v d p = Ok (o, w) ->
  token o = JNull /\
  match c with
  | Login | Logout | GetSiteSettings None => True
  | _ =>
      exists r,
        sent (snd (invoke c (mkState o t [] []))) = [r] /\
        req_params r = [("token", JNull); ("_", JInt (clock t))]
  end.
Proof.
  intros Hinit.
  assert (Htok : token o = JNull).
  { unfold init in Hinit. destruct cfg as [c0|].
    - destruct (cfg_baseurl c0), (cfg_site c0), (cfg_verify c0),
        (cfg_username c0), (cfg_password c0); try discriminate.
      injection Hinit as <- _. reflexivity.
    - destruct p as [u pw]. injection Hinit as <- _. reflexivity. }
  split; [exact Htok|].
  pose proof (invoke_effect c (mkState o t [] [])) as H. cbv zeta in H.
  destruct c as [| | | | | | [k|] | k | mac k | mac b0 k | mac n k | mac b0 k];
    try exact I;
    destruct H as (r & Hs & Hp & _); exists r;
    (split; [exact Hs|]); rewrite Hp; cbn [self ticks]; now rewrite Htok.
Qed.

(** ** More on sequences of calls *)

Lemma call_eq_Login c : c = Login \/ c <> Login.
Proof. destruct c; (left; reflexivity) || (right; discriminate). Qed.


(** X21.  Whatever calls are made on an object, and however they end,
    its base URL, API prefix, site, TLS flag, debug flag and credentials
    stay what the constructor set: only the token ever changes. *)
Theorem run_keeps_configuration cs st :
  let o := self st in
  let o' := self (run cs st) in
  baseurl o' = baseurl o /\ base_api_path o' = base_api_path o /\
  site o' = site o /\ verify o' = verify o /\ debug o' = debug o /\
  login_username o' = login_username o /\
  login_password o' = login_password o.
Proof.
  cbv zeta. revert st. induction cs as [|c cs IH]; intros st.
  - repeat split.
  - rewrite run_cons.
    assert (Hstep : self (snd (invoke c st)) = self st \/
                    exists tok, self (snd (invoke c st))
                                = with_token (self st) tok).
    { destruct (call_eq_Login c) as [-> | Hc].
      - unfold invoke. rewrite discard_snd, login_eq. cbv zeta.
        destruct (http _ _) as [resp|e];
          [destruct (resp_json resp) as [body|];
           [destruct (nested_token body) as [tok|e]|]|];
          cbn [snd self]; eauto.
      - left. now apply invoke_self. }
    specialize (IH (snd (invoke c st))).
    destruct Hstep as [Hs | (tok & Hs)]; rewrite Hs in IH; exact IH.
Qed.

Lemma invoke_stamps c st :
  exists new,
    sent (snd (invoke c st)) = sent st ++ new /\
    (ticks st <= ticks (snd (invoke c st)))%nat /\
    stamps new
    = map clock (seq (ticks st) (ticks (snd (invoke c st)) - ticks st)).
Proof.
  pose proof (invoke_effect c st) as H. cbv zeta in H.
  assert (Hnone : forall r, req_params r = [] -> stamps [r] = []).
  { intros r Hr. unfold stamps, stamp. simpl. now rewrite Hr. }
  assert (Hsome : forall r t z,
             req_params r = [("token", t); ("_", JInt z)] ->
             stamps [r] = [z]).
  { intros r t z Hr. unfold stamps, stamp. simpl. now rewrite Hr. }
  destruct c as [| | | | | | [k|] | k | mac k | mac b k | mac n k | mac b k];
    try (destruct H as (r & Hs & Hp & Ht & _); exists [r];
         rewrite Hs, Ht; split; [reflexivity|]; split; [lia|];
         rewrite (Hsome _ _ _ Hp);
         replace (S (ticks st) - ticks st)%nat with 1%nat by lia;
         reflexivity);
    try (destruct H as (r & Hs & Hp & Ht); exists [r];
         rewrite Hs, Ht; split; [reflexivity|]; split; [lia|];
         rewrite (Hnone _ Hp), Nat.sub_diag; reflexivity).
  - destruct H as (r & Hs & Hp & Ht & _). exists [r].
    rewrite Hs, Ht. split; [reflexivity|]. split; [lia|].
    rewrite (Hnone _ Hp), Nat.sub_diag. reflexivity.
  - exists []. rewrite H, app_nil_r, Nat.sub_diag. repeat split. lia.
Qed.

Lemma run_stamps_exact cs : forall st,
  exists new,
    sent (run cs st) = sent st ++ new /\
    (ticks st <= ticks (run cs st))%nat /\
    stamps new = map clock (seq (ticks st) (ticks (run cs st) - ticks st)).
Proof.
  induction cs as [|c cs IH]; intros st.
  - exists []. simpl. rewrite app_nil_r, Nat.sub_diag. repeat split. lia.
  - rewrite run_cons.
    destruct (invoke_stamps c st) as (new1 & Hs1 & Ht1 & Hst1).
    destruct (IH (snd (invoke c st))) as (new2 & Hs2 & Ht2 & Hst2).
    exists (new1 ++ new2). split; [|split].
    + now rewrite Hs2, Hs1, app_assoc.
    + lia.
    + rewrite stamps_app, Hst1, Hst2, <- map_app. f_equal.
      set (t0 := ticks st) in *. set (t1 := ticks (snd (invoke c st))) in *.
      set (t2 := ticks (run cs (snd (invoke c st)))) in *.
      replace (t2 - t0)%nat with ((t1 - t0) + (t2 - t1))%nat by lia.
      rewrite seq_app. do 2 f_equal. lia.
Qed.

(** X22.  The requests of a run that carry [_] carry consecutive clock
    readings, in order: the first the reading with which the run
    started, each next one the next reading.  No reading is skipped or
    used twice, and a request without [_] uses none. *)
Theorem stamps_are_consecutive_clock_readings cs st :
  exists new,
    sent (run cs st) = sent st ++ new /\
    stamps new = map clock (seq (ticks st) (length (stamps new))) /\
    ticks (run cs st) = (ticks st + length (stamps new))%nat.
Proof.
  destruct (run_stamps_exact cs st) as (new & Hs & Ht & Hst).
  exists new. split; [exact Hs|].
  assert (Hlen : length (stamps new) = (ticks (run cs st) - ticks st)%nat)
    by (rewrite Hst, length_map, length_seq; reflexivity).
  rewrite Hlen. split; [exact Hst | lia].
Qed.



End Client.

(** ** The claims on the sample controller *)

Local Abbreviation sample_token := (JStr "t0k3n").

Local Abbreviation sample_login_response :=
  (mkResponse 200 (Some (envelope (JObj [("token", sample_token)])))).

Lemma login_token_attached_witness :
  exists st1,
    login sample_clock sample_http sample_state = (Ok sample_token, st1) /\
    token (self st1) = sample_token /\
    token (self (run sample_clock sample_http sample_DataFrame_other
                   sample_Series_other
                   [GetDevices None; Logout; IsLogged] st1))
    = sample_token.
Proof.
  destruct (login_token_attached sample_clock sample_http
              sample_DataFrame_other sample_Series_other sample_state
              sample_login_response
              (envelope (JObj [("token", sample_token)])) sample_token
              eq_refl eq_refl eq_refl) as (st1 & Hrun & Htok & Hlater).
  exists st1. split; [exact Hrun|]. split; [exact Htok|].
  apply Hlater. repeat constructor; discriminate.
Defined.

(** C4 as stated fails: a login answered with an envelope whose result
    has no token ends in a [KeyError]. *)
Lemma login_without_token_raises_KeyError :
  fst (login sample_clock (const_http 200 (envelope (JObj []))) sample_state)
  = Raise (KeyError "token") /\
  exn_name (KeyError "token") <> "AuthError".
Proof. split; [reflexivity | discriminate]. Qed.

Lemma login_missing_token_lookup_error_witness :
  exists e st1,
    login sample_clock (const_http 200 (envelope JNull)) sample_state
    = (Raise e, st1) /\
    (e = JSONDecodeError \/ e = KeyError "result" \/ e = KeyError "token"
     \/ exists msg, e = TypeError msg) /\
    exn_name e <> "AuthError".
Proof.
  apply (login_missing_token_lookup_error sample_clock
           (const_http 200 (envelope JNull)) sample_state
           (mkResponse 200 (Some (envelope JNull))) eq_refl).
  intros body tok [= <-]. simpl. discriminate.
Defined.

Lemma failed_login_keeps_token_witness :
  (exists e, fst (login sample_clock (html_http 502) sample_state) = Raise e) /\
  token (self (snd (login sample_clock (html_http 502) sample_state)))
  = token (self sample_state) /\
  self (snd (login sample_clock (html_http 502) sample_state))
  = self sample_state.
Proof.
  apply (failed_login_keeps_token sample_clock (html_http 502) sample_state
           (mkResponse 502 None) eq_refl).
  intros body tok H. simpl in H. discriminate.
Defined.

Lemma is_logged_iff_200_witness :
  exists b st1,
    is_logged sample_clock (html_http 401) sample_state = (Ok b, st1) /\
    (b = true <-> 401%Z = 200%Z) /\
    (b = false <-> 401%Z <> 200%Z).
Proof.
  exact (is_logged_iff_200 sample_clock (html_http 401) sample_state
           (mkResponse 401 None) eq_refl).
Defined.

Lemma logout_fire_and_forget_witness :
  logout sample_clock (html_http 503) sample_state =
  (Ok tt,
   mkState sample_api 0
     [mkRequest "POST" "https://omadacontroller.local:8043/api/v2/logout"
        [] None None]
     [(WARNING, "logout failed with status code 503")]).
Proof.
  exact (logout_fire_and_forget sample_clock (html_http 503) sample_state
           (mkResponse 503 None) eq_refl).
Defined.

(** C2 as stated fails: what comes back is the envelope, not its
    [result] field. *)
Lemma set_eap_led_status_returns_envelope :
  let inner := JObj [("ledSetting", JInt 0)] in
  let http := const_http 200 (envelope inner) in
  fst (makeApiCall sample_clock http "/sites" "GET" None None None
         false true false true sample_state)
  = Ok (Parsed (envelope inner)) /\
  fst (set_eap_2g_radio sample_clock http "AA:BB" false None sample_state)
  = Ok (Parsed (envelope inner)) /\
  fst (set_eap_led_status sample_clock http "AA:BB" 0 None sample_state)
  = Ok (Parsed (envelope inner)) /\
  envelope inner <> inner.
Proof. cbv zeta. repeat split; try reflexivity. discriminate. Qed.

Lemma makeApiCall_returns_parsed_body_witness :
  let body := envelope (JArr sample_devices) in
  let http := const_http 200 body in
  (forall url mode ep d j dbg inc bare,
      mode = "GET" \/ mode = "POST" \/ mode = "PATCH" ->
      fst (makeApiCall sample_clock http url mode ep d j dbg inc bare true
             sample_state)
      = Ok (Parsed body)) /\
  (forall mac b k,
      fst (set_eap_2g_radio sample_clock http mac b k sample_state)
      = Ok (Parsed body)) /\
  (forall mac n k,
      fst (set_eap_led_status sample_clock http mac n k sample_state)
      = Ok (Parsed body)).
Proof.
  cbv zeta.
  apply (makeApiCall_returns_parsed_body sample_clock
           (const_http 200 (envelope (JArr sample_devices))) sample_state
           (mkResponse 200 (Some (envelope (JArr sample_devices))))).
  - intros r. reflexivity.
  - reflexivity.
Defined.

(** C3 as stated fails: the logout request carries neither [token] nor
    [_]. *)
Lemma logout_request_has_no_token :
  exists r,
    sent (snd (invoke sample_clock sample_http sample_DataFrame_other
                 sample_Series_other Logout sample_state)) = [r] /\
    dict_get (req_params r) "token" = None /\
    dict_get (req_params r) "_" = None.
Proof. eexists. repeat split. Qed.

(** C6 as stated fails for [get_site_settings]: without [site_key] the
    call is rejected and nothing is sent. *)
Lemma get_site_settings_needs_site_key :
  invoke sample_clock sample_http sample_DataFrame_other sample_Series_other
    (GetSiteSettings None) sample_state
  = (Raise (TypeError
       "get_site_settings() missing 1 required positional argument: 'site_key'"),
     sample_state) /\
  sent sample_state = [].
Proof. split; reflexivity. Qed.


Lemma main_disable_trace_witness :
  let run_main noleds :=
    main sample_clock sample_http sample_DataFrame_other
      sample_cell_str_other (mkArgs false "config.yml" true noleds)
      sample_state in
  let eaps := "https://omadacontroller.local:8043/api/v2/sites/Default/eaps/" in
  let radio_off :=
    Some (JObj [("radioSetting2g", JObj [("radioEnable", JBool false)])]) in
  let led_off := Some (JObj [("ledSetting", JInt 0)]) in
  let opening :=
    [("POST", "https://omadacontroller.local:8043/api/v2/login",
      Some (JObj [("username", JStr "admin"); ("password", JStr "secret")]));
     ("GET", "https://omadacontroller.local:8043/api/v2/sites/Default/devices",
      None)] in
  map wire (sent (snd (run_main false)))
  = opening ++
    [("PATCH", (eaps ++ "AA:BB")%string, radio_off); ("PATCH", (eaps ++ "AA:BB")%string, led_off);
     ("PATCH", (eaps ++ "CC:DD")%string, radio_off); ("PATCH", (eaps ++ "CC:DD")%string, led_off)]
  /\ fst (run_main false) = Ok tt
  /\ map wire (sent (snd (run_main true)))
     = opening ++
       [("PATCH", (eaps ++ "AA:BB")%string, radio_off);
        ("PATCH", (eaps ++ "CC:DD")%string, radio_off)]
  /\ fst (run_main true) = Ok tt.
Proof.
  cbv zeta.
  assert (Hlogin : forall past r,
             req_url r = path_to_url (self sample_state) "/login" ->
             exists resp body,
               sample_http past r = Ok resp /\ resp_json resp = Some body
               /\ nested_token body = Ok sample_token).
  { intros past r H. unfold sample_http. rewrite H. simpl.
    do 2 eexists. repeat split. }
  assert (Hdevs : forall past r,
             req_url r
             = path_to_url (self sample_state)
                 ("/sites/" ++ site (self sample_state) ++ "/devices") ->
             exists resp body,
               sample_http past r = Ok resp /\ resp_json resp = Some body
               /\ getitem body "result" = Ok (JArr sample_devices)).
  { intros past r H. unfold sample_http. rewrite H. simpl.
    do 2 eexists. repeat split. }
  assert (Hshape : Forall2
            (fun d mac => exists fields name,
                 d = JObj fields /\ dict_get fields "mac" = Some (JStr mac)
                 /\ dict_get fields "name" = Some (JStr name))
            sample_devices ["AA:BB"; "CC:DD"]).
  { repeat constructor; do 2 eexists; repeat split. }
  assert (Hpatch : forall past r, req_mode r = "PATCH" ->
             exists resp body,
               sample_http past r = Ok resp /\ resp_json resp = Some body).
  { intros past r _. unfold sample_http.
    destruct (req_url r =? _)%string; [|destruct (req_url r =? _)%string];
      do 2 eexists; split; reflexivity. }
  destruct (main_disable_trace sample_clock sample_http
              sample_DataFrame_other sample_cell_str_other
              (mkArgs false "config.yml" true false) sample_state
              sample_token sample_devices ["AA:BB"; "CC:DD"]
              eq_refl Hlogin Hdevs Hshape Hpatch) as (Hleds & _ & Hok).
  destruct (main_disable_trace sample_clock sample_http
              sample_DataFrame_other sample_cell_str_other
              (mkArgs false "config.yml" true true) sample_state
              sample_token sample_devices ["AA:BB"; "CC:DD"]
              eq_refl Hlogin Hdevs Hshape Hpatch) as (Hquiet & _ & Hok').
  split; [exact Hleds|]. split; [apply Hok; discriminate|].
  split; [exact Hquiet|]. apply Hok'. discriminate.
Defined.

(** ** The further properties on the sample controller *)

Lemma unsupported_mode_raises_before_sending_witness :
  let res := makeApiCall sample_clock sample_http "/sites" "DELETE"
               None None None false true false true sample_state in
  fst res = Raise (ValueError "Unsupported mode DELETE") /\
  sent (snd res) = [] /\
  self (snd res) = sample_api /\
  logged (snd res) = [] /\
  ticks (snd res) = 1%nat.
Proof.
  apply (unsupported_mode_raises_before_sending sample_clock sample_http
           "/sites" "DELETE" None None None false true false true
           sample_state); discriminate.
Defined.

Lemma injected_params_override_callers_witness :
  exists r,
    sent (snd (makeApiCall sample_clock sample_http "/sites" "GET"
                 (Some [("token", JStr "forged"); ("page", JInt 2)])
                 None None false true false false sample_state)) = [r] /\
    dict_get (req_params r) "token" = Some JNull /\
    dict_get (req_params r) "_" = Some (JInt 1700000000000) /\
    dict_get (req_params r) "page" = Some (JInt 2).
Proof.
  destruct (injected_params_override_callers sample_clock sample_http
              "/sites" "GET" [("token", JStr "forged"); ("page", JInt 2)]
              None None false false false sample_state
              (or_introl eq_refl)) as [(r & Hs & Ht & Hu & Hk) _].
  exists r. split; [exact Hs|]. split; [exact Ht|]. split; [exact Hu|].
  rewrite Hk by discriminate. reflexivity.
Defined.

Lemma transport_error_propagates_witness :
  fst (invoke sample_clock refusing_http sample_DataFrame_other
         sample_Series_other (GetDevices None) sample_state)
  = Raise ConnectionError /\
  fst (is_logged sample_clock refusing_http sample_state)
  = Raise ConnectionError /\
  fst (logout sample_clock refusing_http sample_state)
  = Raise ConnectionError /\
  logged (snd (logout sample_clock refusing_http sample_state)) = [].
Proof.
  apply (transport_error_propagates sample_clock refusing_http
           sample_DataFrame_other sample_Series_other (GetDevices None)
           sample_state ConnectionError).
  - intros r. reflexivity.
  - discriminate.
Defined.

Lemma non_json_body_raises_witness :
  fst (invoke sample_clock (html_http 502) sample_DataFrame_other
         sample_Series_other (GetDevices None) sample_state)
  = Raise JSONDecodeError.
Proof.
  exact (non_json_body_raises sample_clock (html_http 502)
           sample_DataFrame_other sample_Series_other (GetDevices None)
           sample_state (mkResponse 502 None) (fun r => eq_refl) eq_refl).
Defined.

Lemma get_scenarios_returns_result_witness :
  fst (get_scenarios sample_clock
         (const_http 200
            (JObj [("errorCode", JInt (-1)); ("msg", JStr "General error.");
                   ("result", JNull)]))
         sample_state)
  = Ok JNull.
Proof.
  apply (get_scenarios_returns_result sample_clock
           (const_http 200
              (JObj [("errorCode", JInt (-1)); ("msg", JStr "General error.");
                     ("result", JNull)]))
           sample_state
           (mkResponse 200
              (Some (JObj [("errorCode", JInt (-1));
                           ("msg", JStr "General error.");
                           ("result", JNull)])))
           _ eq_refl eq_refl).
Defined.

Lemma admins_and_sites_read_result_data_witness :
  fst (get_admins sample_clock
         (const_http 200 (envelope (JObj [("totalRows", JInt 2)])))
         sample_DataFrame_other sample_state)
  = Raise (KeyError "data") /\
  fst (get_sites sample_clock
         (const_http 200 (envelope (JObj [("totalRows", JInt 2)])))
         sample_DataFrame_other sample_state)
  = Raise (KeyError "data").
Proof.
  apply (admins_and_sites_read_result_data sample_clock
           (const_http 200 (envelope (JObj [("totalRows", JInt 2)])))
           sample_DataFrame_other sample_state
           (mkResponse 200 (Some (envelope (JObj [("totalRows", JInt 2)]))))
           (envelope (JObj [("totalRows", JInt 2)]))
           (JObj [("totalRows", JInt 2)])
           (fun r => eq_refl) eq_refl eq_refl)
    with (fields := [("totalRows", JInt 2)]); reflexivity.
Defined.



Lemma site_http_login devices past r :
  req_url r = path_to_url (self sample_state) "/login" ->
  exists resp body,
    site_http devices past r = Ok resp /\ resp_json resp = Some body
    /\ nested_token body = Ok (JStr "t0k3n").
Proof.
  intros H. unfold site_http. rewrite H. simpl.
  do 2 eexists. repeat split.
Qed.

Lemma site_http_devices devices past r :
  req_url r
  = path_to_url (self sample_state)
      ("/sites/" ++ site (self sample_state) ++ "/devices") ->
  exists resp body,
    site_http devices past r = Ok resp /\ resp_json resp = Some body
    /\ getitem body "result" = Ok (JArr devices).
Proof.
  intros H. unfold site_http. rewrite H. simpl.
  do 2 eexists. repeat split.
Qed.

Lemma site_http_json devices past r :
  exists resp body,
    site_http devices past r = Ok resp /\ resp_json resp = Some body.
Proof.
  unfold site_http.
  destruct (req_url r =? _)%string; [|destruct (req_url r =? _)%string];
    do 2 eexists; split; reflexivity.
Qed.

Lemma sample_devices_named :
  Forall2 (fun (d : json) (mn : string * string) =>
             exists fields, d = JObj fields
               /\ dict_get fields "mac" = Some (JStr (fst mn))
               /\ dict_get fields "name" = Some (JStr (snd mn)))
    sample_devices [("AA:BB", "EAP1"); ("CC:DD", "EAP2")].
Proof. repeat constructor; eexists; repeat split. Qed.

Local Abbreviation sample_main http a :=
  (main sample_clock http sample_DataFrame_other sample_cell_str_other a
     sample_state).

Local Abbreviation eap_base :=
  "https://omadacontroller.local:8043/api/v2/sites/Default/eaps/".

Local Abbreviation sample_opening :=
  [("POST", "https://omadacontroller.local:8043/api/v2/login",
    Some (JObj [("username", JStr "admin"); ("password", JStr "secret")]));
   ("GET", "https://omadacontroller.local:8043/api/v2/sites/Default/devices",
    @None json)].

Lemma main_enable_trace_witness :
  let radio_on :=
    Some (JObj [("radioSetting2g", JObj [("radioEnable", JBool true)])]) in
  let led_on := Some (JObj [("ledSetting", JInt 1)]) in
  map wire (sent (snd (sample_main (site_http sample_devices)
                         (mkArgs false "config.yml" false false))))
  = sample_opening ++
    [("PATCH", (eap_base ++ "AA:BB")%string, radio_on);
     ("PATCH", (eap_base ++ "AA:BB")%string, led_on);
     ("PATCH", (eap_base ++ "CC:DD")%string, radio_on);
     ("PATCH", (eap_base ++ "CC:DD")%string, led_on)] /\
  fst (sample_main (site_http sample_devices)
         (mkArgs false "config.yml" false false)) = Ok tt.
Proof.
  cbv zeta.
  destruct (main_enable_trace sample_clock (site_http sample_devices)
              sample_DataFrame_other sample_cell_str_other
              (mkArgs false "config.yml" false false) sample_state
              (JStr "t0k3n") sample_devices
              [("AA:BB", "EAP1"); ("CC:DD", "EAP2")] eq_refl
              (site_http_login sample_devices)
              (site_http_devices sample_devices) sample_devices_named
              (fun past r _ => site_http_json sample_devices past r))
    as [Htrace Hok].
  split; [exact Htrace | apply Hok; discriminate].
Defined.

Lemma main_empty_device_list_raises_witness :
  fst (sample_main (site_http []) (mkArgs false "config.yml" true false))
  = Raise (KeyError "mac") /\
  map wire (sent (snd (sample_main (site_http [])
                         (mkArgs false "config.yml" true false))))
  = sample_opening.
Proof.
  rewrite (main_empty_device_list_raises sample_clock (site_http [])
             sample_DataFrame_other sample_cell_str_other
             (mkArgs false "config.yml" true false) sample_state
             (JStr "t0k3n") (site_http_login []) (site_http_devices [])).
  split; reflexivity.
Defined.

Lemma main_devices_without_name_raise_witness :
  fst (sample_main (site_http nameless_devices)
         (mkArgs false "config.yml" true false))
  = Raise (KeyError "name") /\
  map wire (sent (snd (sample_main (site_http nameless_devices)
                         (mkArgs false "config.yml" true false))))
  = sample_opening.
Proof.
  rewrite (main_devices_without_name_raise sample_clock
             (site_http nameless_devices)
             sample_DataFrame_other sample_cell_str_other
             (mkArgs false "config.yml" true false) sample_state
             (JStr "t0k3n") nameless_devices
             [[("mac", JStr "AA:BB")];
              [("mac", JStr "CC:DD"); ("model", JStr "EAP245")]]
             (site_http_login nameless_devices)
             (site_http_devices nameless_devices) eq_refl).
  - split; reflexivity.
  - exists [("mac", JStr "AA:BB")], (JStr "AA:BB").
    split; [left|]; reflexivity.
  - intros row [<- | [<- | []]]; reflexivity.
Defined.

Lemma main_stops_at_failed_patch_witness :
  let radio_off :=
    Some (JObj [("radioSetting2g", JObj [("radioEnable", JBool false)])]) in
  let led_off := Some (JObj [("ledSetting", JInt 0)]) in
  fst (sample_main (flaky_http (eap_base ++ "CC:DD"))
         (mkArgs false "config.yml" true false))
  = Raise Timeout /\
  map wire (sent (snd (sample_main (flaky_http (eap_base ++ "CC:DD"))
                         (mkArgs false "config.yml" true false))))
  = sample_opening ++
    [("PATCH", (eap_base ++ "AA:BB")%string, radio_off);
     ("PATCH", (eap_base ++ "AA:BB")%string, led_off);
     ("PATCH", (eap_base ++ "CC:DD")%string, radio_off)].
Proof.
  cbv zeta.
  apply (main_stops_at_failed_patch sample_clock
           (flaky_http (eap_base ++ "CC:DD"))
           sample_DataFrame_other sample_cell_str_other
           (mkArgs false "config.yml" true false) sample_state
           (JStr "t0k3n") sample_devices
           [("AA:BB", "EAP1")] ("CC:DD", "EAP2") [] Timeout).
  - intros past r H. unfold flaky_http. rewrite H.
    rewrite andb_false_r. now apply site_http_login.
  - intros past r H. unfold flaky_http. rewrite H.
    rewrite andb_false_r. now apply site_http_devices.
  - exact sample_devices_named.
  - intros mac [<- | []] past r _ Hurl. unfold flaky_http. rewrite Hurl.
    rewrite andb_false_r. apply site_http_json.
  - intros past r Hmode Hurl. unfold flaky_http. rewrite Hmode, Hurl.
    reflexivity.
Defined.


Lemma main_requests_carry_login_token_witness :
  exists first rest,
    sent (snd (sample_main (site_http sample_devices)
                 (mkArgs false "config.yml" true false)))
    = first :: rest /\
    req_params first = [] /\
    Forall (fun r => dict_get (req_params r) "token" = Some (JStr "t0k3n"))
      rest /\
    length rest = 5%nat.
Proof.
  destruct (main_requests_carry_login_token sample_clock
              (site_http sample_devices)
              sample_DataFrame_other sample_cell_str_other
              (mkArgs false "config.yml" true false) sample_state
              (JStr "t0k3n") sample_devices
              [("AA:BB", "EAP1"); ("CC:DD", "EAP2")]
              (site_http_login sample_devices)
              (site_http_devices sample_devices) sample_devices_named
              (fun past r _ => site_http_json sample_devices past r))
    as (first & rest & Hs & Hp & Ht & Hl & _).
  exists first, rest. repeat split; assumption.
Defined.

Lemma login_sends_stored_credentials_witness :
  sent (snd (login sample_clock sample_http
               (mkState
                  (mkOmadaAPI JNull "/api/v2" true "https://10.0.0.2:8043"
                     "Lab" false "operator" "hunter2") 0 [] [])))
  = [mkRequest "POST" "https://10.0.0.2:8043/api/v2/login" [] None
       (Some (JObj [("username", JStr "operator");
                    ("password", JStr "hunter2")]))].
Proof.
  exact (login_sends_stored_credentials sample_clock sample_http
           (Some sample_config) "https://omadacontroller.local:8043"
           "Default" true true ("admin", "secret") _ _ eq_refl).
Defined.

Lemma calls_before_login_send_no_token_witness :
  exists r,
    sent (snd (invoke sample_clock sample_http sample_DataFrame_other
                 sample_Series_other IsLogged
                 (mkState
                    (mkOmadaAPI JNull "/api/v2" true "https://10.0.0.2:8043"
                       "Lab" false "operator" "hunter2") 0 [] []))) = [r] /\
    req_params r = [("token", JNull); ("_", JInt 1700000000000)].
Proof.
  exact (proj2 (calls_before_login_send_no_token sample_clock sample_http
                  sample_DataFrame_other sample_Series_other
                  (Some sample_config) "https://omadacontroller.local:8043"
                  "Default" true true ("admin", "secret") _ _ IsLogged 0
                  eq_refl)).
Defined.

